(** * Course resource handlers of the school-management backend

    A shallow embedding of [src/controllers/course.controller.js]:
    the five Express handlers [createCourse], [getAllCourses],
    [getCourseById], [updateCourse] and [deleteCourse], written as programs
    over the calls they make on the Sequelize models ([db.Course.create],
    [count], [findAll], [findByPk], [instance.update], [instance.destroy]).

    Conventions of the model.
    - A JavaScript string is the Rocq string of its UTF-8 bytes.  Query
      strings are decoded from UTF-8, so every string a handler receives
      has such a form; splitting at a comma and comparing with an ASCII
      word act on the bytes as they act on the characters.  [trim] and
      [parseInt] strip the whole ECMAScript set of white space and line
      terminators, by their encodings.  [toLowerCase] maps the letters A
      to Z; the handlers compare its result with ['students'] and
      ['teachers'] only, and no other character lower-cases to a letter of
      these words.
    - A JavaScript number is a double.  The numbers the handlers build are
      NaN, an infinity, or a double whose value is an integer: [Js.Int z]
      stands for the double of value [z], and every operation that can
      leave the doubles rounds its exact result to the nearest double,
      ties to even ([Js.round]).  The sign of a zero is not kept: it is
      neither sent in JSON nor told apart by [||].
    - A query parameter is absent ([undefined]), a string, an array or an
      object, as the query parser of Express delivers them. *)

From Stdlib Require Import ZArith QArith Qround List String Ascii Bool Lia.
From Stdlib Require Import DecimalString DecimalPos.
Import ListNotations.
Local Open Scope string_scope.
Local Open Scope Z_scope.
Set Warnings "-register-all".

(** ** JavaScript values used by the handlers *)

Module Js.

(** A JavaScript number, restricted to the values the handlers can build:
    [Int z] is the double whose value is the integer [z]. *)
Inductive number : Type :=
| NaN
| PosInfinity
| NegInfinity
| Int (z : Z).

(** ToBoolean on numbers: NaN and zero are falsy. *)
Definition truthy (n : number) : bool :=
  match n with
  | NaN => false
  | Int 0 => false
  | _ => true
  end.

(** [a || b] on numbers. *)
Definition or (a b : number) : number := if truthy a then a else b.

Definition sign_inf (positive : bool) : number :=
  if positive then PosInfinity else NegInfinity.

(** The double nearest to an integer, ties to even.  Below 2^53 in
    magnitude every integer is a double.  From there on a double keeps the
    53 leading bits: the [e] low bits are dropped and the kept part [q] is
    rounded up when the dropped part [r] is more than half, or is half and
    [q] is odd.  A result of 2^1024 or more is an infinity. *)
Definition round (z : Z) : number :=
  let a := Z.abs z in
  if a <? 2 ^ 53 then Int z
  else
    let e := Z.log2 a - 52 in
    let q := a / 2 ^ e in
    let r := a mod 2 ^ e in
    let half := 2 ^ (e - 1) in
    let m := if r <? half then q
             else if half <? r then q + 1
             else if Z.even q then q else q + 1 in
    if 2 ^ 1024 <=? m * 2 ^ e then sign_inf (0 <? z)
    else Int (Z.sgn z * (m * 2 ^ e)).

Arguments round : simpl never.

(** [a - b] *)
Definition sub (a b : number) : number :=
  match a, b with
  | NaN, _ | _, NaN => NaN
  | Int x, Int y => round (x - y)
  | PosInfinity, PosInfinity | NegInfinity, NegInfinity => NaN
  | PosInfinity, _ => PosInfinity
  | NegInfinity, _ => NegInfinity
  | Int _, PosInfinity => NegInfinity
  | Int _, NegInfinity => PosInfinity
  end.

(** [a * b] *)
Definition mul (a b : number) : number :=
  match a, b with
  | NaN, _ | _, NaN => NaN
  | Int x, Int y => round (x * y)
  | Int x, PosInfinity | PosInfinity, Int x =>
      if x =? 0 then NaN else sign_inf (0 <? x)
  | Int x, NegInfinity | NegInfinity, Int x =>
      if x =? 0 then NaN else sign_inf (x <? 0)
  | PosInfinity, PosInfinity | NegInfinity, NegInfinity => PosInfinity
  | PosInfinity, NegInfinity | NegInfinity, PosInfinity => NegInfinity
  end.

(** [Math.ceil(a / b)]: the quotient of two integers is a rational, so the
    division and the rounding are modelled together.  A zero divisor gives
    an infinity (or NaN for 0/0), an infinite divisor gives zero.  The
    dividend of the handler is a row count: for a dividend below 2^53 in
    magnitude the double quotient and the exact quotient have the same
    ceiling, which is the value given here. *)
Definition ceil_div (a b : number) : number :=
  match a, b with
  | NaN, _ | _, NaN => NaN
  | Int x, Int y =>
      if y =? 0 then (if x =? 0 then NaN else sign_inf (0 <? x))
      else Int (Qceiling (inject_Z x / inject_Z y))
  | Int _, _ => Int 0
  | PosInfinity, Int y => sign_inf (0 <=? y)
  | NegInfinity, Int y => sign_inf (y <? 0)
  | _, _ => NaN
  end.

(** *** Strings *)

Definition code (c : ascii) : Z := Z.of_N (N_of_ascii c).

(** White space and line terminators of one byte: U+0009 to U+000D and
    U+0020. *)
Definition white_space_1 (c : ascii) : bool :=
  ((9 <=? code c) && (code c <=? 13)) || (code c =? 32).

(** Of two bytes: U+00A0, the no-break space. *)
Definition white_space_2 (c d : ascii) : bool :=
  (code c =? 194) && (code d =? 160).

(** Of three bytes: U+1680; U+2000 to U+200A, U+2028, U+2029 and U+202F;
    U+205F; U+3000; and U+FEFF. *)
Definition white_space_3 (c d e : ascii) : bool :=
  ((code c =? 225) && (code d =? 154) && (code e =? 128))
  || ((code c =? 226) && (code d =? 128)
      && (((128 <=? code e) && (code e <=? 138))
          || (code e =? 168) || (code e =? 169) || (code e =? 175)))
  || ((code c =? 226) && (code d =? 129) && (code e =? 159))
  || ((code c =? 227) && (code d =? 128) && (code e =? 128))
  || ((code c =? 239) && (code d =? 187) && (code e =? 191)).

(** The string after one leading white-space character, if it starts with
    one. *)
Definition skip_white (s : string) : option string :=
  match s with
  | String c rest =>
      if white_space_1 c then Some rest
      else match rest with
           | String d rest2 =>
               if white_space_2 c d then Some rest2
               else match rest2 with
                    | String e rest3 =>
                        if white_space_3 c d e then Some rest3 else None
                    | EmptyString => None
                    end
           | EmptyString => None
           end
  | EmptyString => None
  end.

(** [s.trimStart()]: leading white-space characters are dropped one after
    the other. *)
Fixpoint trimStart (s : string) : string :=
  match s with
  | String c rest =>
      if white_space_1 c then trimStart rest
      else match rest with
           | String d rest2 =>
               if white_space_2 c d then trimStart rest2
               else match rest2 with
                    | String e rest3 =>
                        if white_space_3 c d e then trimStart rest3 else s
                    | EmptyString => s
                    end
           | EmptyString => s
           end
  | EmptyString => EmptyString
  end.

(** Whether a string is white space throughout. *)
Definition all_white (s : string) : bool := String.eqb (trimStart s) "".

(** [s.trimEnd()], by recursion from the left: the string ends where what
    remains is white space throughout. *)
Fixpoint trimEnd (s : string) : string :=
  match s with
  | String c rest =>
      if all_white s then EmptyString else String c (trimEnd rest)
  | EmptyString => EmptyString
  end.

(** [s.trim()] *)
Definition trim (s : string) : string := trimEnd (trimStart s).

Definition lower_char (c : ascii) : ascii :=
  if (65 <=? code c) && (code c <=? 90)
  then ascii_of_N (N_of_ascii c + 32)
  else c.

(** [s.toLowerCase()] *)
Fixpoint toLowerCase (s : string) : string :=
  match s with
  | String c rest => String (lower_char c) (toLowerCase rest)
  | EmptyString => EmptyString
  end.

(** [s.split(',')]: the pieces between the commas, in order; a string
    without a comma is one piece, also when it is empty. *)
Fixpoint split_comma (s : string) : list string :=
  match s with
  | EmptyString => [EmptyString]
  | String c rest =>
      if Ascii.eqb c ","%char then EmptyString :: split_comma rest
      else match split_comma rest with
           | piece :: pieces => String c piece :: pieces
           | [] => [String c EmptyString]
           end
  end.

(** [list.includes(x)] on strings. *)
Definition includes (l : list string) (x : string) : bool :=
  existsb (String.eqb x) l.

(** *** parseInt *)

(** The value of a character as a digit (radix up to 36). *)
Definition digit_value (c : ascii) : option Z :=
  let n := code c in
  if (48 <=? n) && (n <=? 57) then Some (n - 48)
  else if (97 <=? n) && (n <=? 122) then Some (n - 87)
  else if (65 <=? n) && (n <=? 90) then Some (n - 55)
  else None.

Definition radix_digit (R : Z) (c : ascii) : option Z :=
  match digit_value c with
  | Some d => if d <? R then Some d else None
  | None => None
  end.

(** The integer denoted by the longest prefix of radix-R digits; [acc] is
    the value read so far, [None] while no digit has been read. *)
Fixpoint read_digits (R : Z) (s : string) (acc : option Z) : option Z :=
  match s with
  | String c rest =>
      match radix_digit R c with
      | Some d =>
          read_digits R rest
            (Some (match acc with Some a => a * R + d | None => d end))
      | None => acc
      end
  | EmptyString => acc
  end.

(** [parseInt(s)] with no radix argument: leading white space is skipped,
    an optional sign is read, a [0x]/[0X] prefix selects radix 16, and the
    longest prefix of digits is converted; no digit at all is NaN.  The
    result is the double nearest to the integer read. *)
Definition parseInt_string (s : string) : number :=
  let s1 := trimStart s in
  let '(sign, s2) :=
    match s1 with
    | String "-"%char rest => (-1, rest)
    | String "+"%char rest => (1, rest)
    | _ => (1, s1)
    end in
  let '(R, s3) :=
    match s2 with
    | String "0"%char (String "x"%char rest) => (16, rest)
    | String "0"%char (String "X"%char rest) => (16, rest)
    | _ => (10, s2)
    end in
  match read_digits R s3 None with
  | Some m => round (sign * m)
  | None => NaN
  end.

(** [parseInt(v)] for a value that may be [undefined]: the argument is
    first converted to a string. *)
Definition parseInt (v : option string) : number :=
  parseInt_string (match v with Some s => s | None => "undefined" end).

End Js.

(** ** JSON values, requests and responses *)

Inductive json : Type :=
| JNull
| JBool (b : bool)
| JNum (n : Js.number)
| JStr (s : string)
| JArr (items : list json)
| JObj (fields : list (string * json)).

(** Property lookup in an object written as a list of key/value pairs;
    an absent key is [undefined]. *)
Fixpoint lookup {A : Type} (k : string) (fields : list (string * A)) : option A :=
  match fields with
  | (k', v) :: rest => if String.eqb k k' then Some v else lookup k rest
  | [] => None
  end.

Definition json_get (k : string) (j : json) : option json :=
  match j with
  | JObj fields => lookup k fields
  | _ => None
  end.

(** A value of [req.query]: the query parser gives a string for a key that
    occurs once, an array for a key that is repeated or written [key[]],
    and an object for a key written [key[name]]. *)
Inductive QueryValue : Type :=
| QString (s : string)
| QArray (items : list QueryValue)
| QObject (fields : list (string * QueryValue)).

(** ToString of a query value: an array is its elements joined by commas,
    an object is ["[object Object]"]. *)
Fixpoint to_string (v : QueryValue) : string :=
  match v with
  | QString s => s
  | QArray items => String.concat "," (map to_string items)
  | QObject _ => "[object Object]"
  end.

(** The Express request: [req.body], [req.query] and [req.params.id]. *)
Record Request : Type := mkRequest {
  body : json;
  query : list (string * QueryValue);
  params_id : string
}.

(** [parseInt(req.query[key])] *)
Definition parseInt_query (req : Request) (key : string) : Js.number :=
  Js.parseInt (option_map to_string (lookup key (query req))).

(** What the handler sends: the status code set on [res] (200 unless
    [res.status] was called) and the value given to [res.json]. *)
Record Response : Type := mkResponse {
  status : Z;
  sent : json
}.

(** [res.status(code).json(value)] *)
Definition res_status_json (code : Z) (value : json) : Response :=
  mkResponse code value.

(** [res.json(value)] *)
Definition res_json (value : json) : Response := mkResponse 200 value.

(** ** The Sequelize models as seen from the controller *)

(** [db.Student] and [db.Teacher], the models an [include] can name. *)
Inductive Model : Type := Student | Teacher.

(** A thrown error; the handlers read only [err.message]. *)
Record Error : Type := mkError {
  name : string;
  message : string
}.

Definition Result (X : Type) : Type := (Error + X)%type.

(** The attributes of a Course row. *)
Record CourseRow : Type := mkCourseRow {
  id : Z;
  title : string;
  description : string;
  TeacherId : Z;
  createdAt : Z;
  updatedAt : Z
}.

(** A Course instance as a query returns it: the row and the associations
    that were loaded with it, by key. *)
Record Instance : Type := mkInstance {
  row : CourseRow;
  loaded : list (string * json)
}.

(** [instance.toJSON()], which [res.json] serialises. *)
Definition toJSON (c : Instance) : json :=
  JObj ([ ("id", JNum (Js.Int (id (row c))));
          ("title", JStr (title (row c)));
          ("description", JStr (description (row c)));
          ("TeacherId", JNum (Js.Int (TeacherId (row c))));
          ("createdAt", JNum (Js.Int (createdAt (row c))));
          ("updatedAt", JNum (Js.Int (updatedAt (row c)))) ]
        ++ loaded c)%list.

(** The options object of [findAll] and [findByPk]; a key that is absent
    or [undefined] is [None]. *)
Record FindOptions : Type := mkFindOptions {
  include : option (list Model);
  limit : option Js.number;
  offset : option Js.number;
  order : option (list (string * string))
}.

(** The calls the controller makes on the models.  [Update] and [Destroy]
    are the instance methods [course.update(values)] and
    [course.destroy()]; [update] changes the instance in place, so its
    answer is the instance the handler then serialises. *)
Inductive Call : Type -> Type :=
| Create (values : json) : Call Instance
| Count : Call Z
| FindAll (options : FindOptions) : Call (list Instance)
| FindByPk (pk : string) (options : option FindOptions) : Call (option Instance)
| Update (course : Instance) (values : json) : Call Instance
| Destroy (course : Instance) : Call unit.

(** ** Handler programs *)

(** A handler is a tree of awaited model calls.  The continuation of an
    awaited call receives the value the promise resolves to or the error
    it rejects with. *)
Inductive Prog (R : Type) : Type :=
| Ret (r : R)
| Throw (e : Error)
| Await {X : Type} (c : Call X) (k : Result X -> Prog R)
| ConsoleError (e : Error) (k : Prog R).

Arguments Ret {R} r.
Arguments Throw {R} e.
Arguments Await {R X} c k.
Arguments ConsoleError {R} e k.

Fixpoint bind {A B : Type} (p : Prog A) (f : A -> Prog B) : Prog B :=
  match p with
  | Ret a => f a
  | Throw e => Throw e
  | Await c k => Await c (fun r => bind (k r) f)
  | ConsoleError e k => ConsoleError e (bind k f)
  end.

(** [await call]: a rejected promise throws at the await. *)
Definition await {X : Type} (c : Call X) : Prog X :=
  Await c (fun r => match r with inl e => Throw e | inr x => Ret x end).

(** [try { p } catch (err) { handler err }] *)
Fixpoint try_catch {R : Type} (p : Prog R) (handler : Error -> Prog R) : Prog R :=
  match p with
  | Ret r => Ret r
  | Throw e => handler e
  | Await c k => Await c (fun r => try_catch (k r) handler)
  | ConsoleError e k => ConsoleError e (try_catch k handler)
  end.

(** [console.error(err)] *)
Definition console_error (e : Error) : Prog unit := ConsoleError e (Ret tt).

Declare Scope prog_scope.
Delimit Scope prog_scope with prog.
Notation "x <- c ;; k" := (bind c (fun x => k))
  (at level 61, c at next level, right associativity) : prog_scope.
Notation "c ;; k" := (bind c (fun _ => k))
  (at level 61, right associativity) : prog_scope.
Local Open Scope prog_scope.

Module CourseController.

(** The body of every [catch] block: [res.status(500).json({ error: err.message })]. *)
Definition internal_error (err : Error) : Response :=
  res_status_json 500 (JObj [("error", JStr (message err))]).

Definition createCourse (req : Request) : Prog Response :=
  try_catch
    (course <- await (Create (body req)) ;;
     Ret (res_status_json 201 (toJSON course)))
    (fun err => Ret (internal_error err)).

(** [parseInt(req.query.limit) || 10] *)
Definition limit_of (req : Request) : Js.number :=
  Js.or (parseInt_query req "limit") (Js.Int 10).

(** [parseInt(req.query.page) || 1] *)
Definition page_of (req : Request) : Js.number :=
  Js.or (parseInt_query req "page") (Js.Int 1).

(** [req.query.sort === 'desc' ? 'DESC' : 'ASC']: strict equality holds
    for the string ['desc'] only. *)
Definition sortOrder_of (req : Request) : string :=
  match lookup "sort" (query req) with
  | Some (QString s) => if String.eqb s "desc" then "DESC" else "ASC"
  | _ => "ASC"
  end.

(** What [populateRaw.split] throws when [populateRaw] is not a string. *)
Definition split_is_not_a_function : Error :=
  mkError "TypeError" "populateRaw.split is not a function".

(** The exception of
    [populateRaw ? populateRaw.split(',')... : []]: an array or an object
    is truthy and has no [split] method. *)
Definition populate_throws (req : Request) : option Error :=
  match lookup "populate" (query req) with
  | Some (QArray _) => Some split_is_not_a_function
  | Some (QObject _) => Some split_is_not_a_function
  | _ => None
  end.

(** [populateRaw ? populateRaw.split(',').map(p => p.trim().toLowerCase()) : []]
    when it does not throw; the empty string is falsy. *)
Definition populateList_of (req : Request) : list string :=
  match lookup "populate" (query req) with
  | Some (QString populateRaw) =>
      if String.eqb populateRaw "" then []
      else map (fun p => Js.toLowerCase (Js.trim p)) (Js.split_comma populateRaw)
  | _ => []
  end.

(** The [include] array after the two conditional pushes. *)
Definition include_of (req : Request) : list Model :=
  ((if Js.includes (populateList_of req) "students" then [Student] else [])
   ++ (if Js.includes (populateList_of req) "teachers" then [Teacher] else []))%list.

(** The options object given to [db.Course.findAll]. *)
Definition findAll_options (req : Request) : FindOptions :=
  {| include := if (0 <? Z.of_nat (List.length (include_of req)))
                then Some (include_of req) else None;
     limit := Some (limit_of req);
     offset := Some (Js.mul (Js.sub (page_of req) (Js.Int 1)) (limit_of req));
     order := Some [("createdAt", sortOrder_of req)] |}.

(** The statements before the [try] are not guarded: what the populate
    expression throws leaves the handler uncaught. *)
Definition getAllCourses (req : Request) : Prog Response :=
  let limit := limit_of req in
  let page := page_of req in
  match populate_throws req with
  | Some type_error => Throw type_error
  | None =>
      try_catch
        (total <- await Count ;;
         let totalPages := Js.ceil_div (Js.Int total) limit in
         courses <- await (FindAll (findAll_options req)) ;;
         Ret (res_json
                (JObj [ ("meta", JObj [ ("totalItems", JNum (Js.Int total));
                                        ("page", JNum page);
                                        ("totalPages", JNum totalPages) ]);
                        ("data", JArr (map toJSON courses)) ])))
        (fun err =>
           console_error err ;;
           Ret (internal_error err))
  end.

(** The options of the fetch in [getCourseById]: [{ include: [db.Student, db.Teacher] }]. *)
Definition with_both_associations : FindOptions :=
  {| include := Some [Student; Teacher];
     limit := None; offset := None; order := None |}.

Definition not_found : Response :=
  res_status_json 404 (JObj [("message", JStr "Not found")]).

Definition getCourseById (req : Request) : Prog Response :=
  try_catch
    (course <- await (FindByPk (params_id req) (Some with_both_associations)) ;;
     match course with
     | None => Ret not_found
     | Some course => Ret (res_json (toJSON course))
     end)
    (fun err => Ret (internal_error err)).

Definition updateCourse (req : Request) : Prog Response :=
  try_catch
    (course <- await (FindByPk (params_id req) None) ;;
     match course with
     | None => Ret not_found
     | Some course =>
         course <- await (Update course (body req)) ;;
         Ret (res_json (toJSON course))
     end)
    (fun err => Ret (internal_error err)).

Definition deleteCourse (req : Request) : Prog Response :=
  try_catch
    (course <- await (FindByPk (params_id req) None) ;;
     match course with
     | None => Ret not_found
     | Some course =>
         await (Destroy course) ;;
         Ret (res_json (JObj [("message", JStr "Deleted")]))
     end)
    (fun err => Ret (internal_error err)).

(** The five exported handlers. *)
Inductive Operation : Type :=
| OpCreateCourse | OpGetAllCourses | OpGetCourseById | OpUpdateCourse | OpDeleteCourse.

Definition handler (op : Operation) : Request -> Prog Response :=
  match op with
  | OpCreateCourse => createCourse
  | OpGetAllCourses => getAllCourses
  | OpGetCourseById => getCourseById
  | OpUpdateCourse => updateCourse
  | OpDeleteCourse => deleteCourse
  end.

End CourseController.

(** ** Running a handler against a collaborator *)

(** The Data Access Collaborator: a store and the effect of each call on
    it, which is a value or a thrown error, and the store afterwards. *)
Record DataAccess : Type := mkDataAccess {
  Store : Type;
  exec : forall X : Type, Call X -> Store -> Result X * Store
}.

Arguments exec d {X} _ _.

(** What an observer of a run sees: each call made on the models, with the
    error it threw if it threw, and each error written to the console. *)
Inductive Event : Type :=
| Called {X : Type} (c : Call X) (thrown : option Error)
| Logged (e : Error).

Definition thrown_by {X : Type} (r : Result X) : option Error :=
  match r with
  | inl e => Some e
  | inr _ => None
  end.

Record Outcome (S R : Type) : Type := mkOutcome {
  result : Result R;
  final : S;
  trace : list Event
}.

Arguments mkOutcome {S R} result final trace.
Arguments result {S R} o.
Arguments final {S R} o.
Arguments trace {S R} o.

Fixpoint run (db : DataAccess) {R : Type} (p : Prog R) (s : Store db)
  : Outcome (Store db) R :=
  match p with
  | Ret r => mkOutcome (inr r) s []
  | Throw e => mkOutcome (inl e) s []
  | Await c k =>
      let answer := exec db c s in
      let o := run db (k (fst answer)) (snd answer) in
      mkOutcome (result o) (final o) (Called c (thrown_by (fst answer)) :: trace o)
  | ConsoleError e k =>
      let o := run db k s in
      mkOutcome (result o) (final o) (Logged e :: trace o)
  end.

(** The response a run sent, if the handler did not end in an uncaught
    exception. *)
Definition response {S : Type} (o : Outcome S Response) : option Response :=
  match result o with
  | inr r => Some r
  | inl _ => None
  end.

(** Calls that write to the store. *)
Definition is_mutation (ev : Event) : bool :=
  match ev with
  | Called (Create _) _ => true
  | Called (Update _ _) _ => true
  | Called (Destroy _) _ => true
  | _ => false
  end.

(** The options of a [findAll] call, for reading a trace. *)
Definition findAll_call (ev : Event) : option FindOptions :=
  match ev with
  | Called (FindAll options) _ => Some options
  | _ => None
  end.

(** The key and options of a [findByPk] call, for reading a trace. *)
Definition findByPk_call (ev : Event) : option (string * option FindOptions) :=
  match ev with
  | Called (FindByPk pk options) _ => Some (pk, options)
  | _ => None
  end.

(** ** An in-memory collaborator *)

Module MemDb.

(** Modelled from the spec: the Data Access Collaborator ([models/index.js]
    and the ORM over its database) is not part of the controller's source.
    This store follows the data model of the spec: a table of Course rows
    with system-assigned identifiers and timestamps, the students enrolled
    in each course, the teachers by identifier, and the state of the
    connection. *)
Record Store : Type := mkStore {
  courses : list CourseRow;
  enrolled : list (Z * json);
  teachers : list (Z * json);
  next_id : Z;
  clock : Z;
  connected : bool
}.

Definition connection_error : Error :=
  mkError "SequelizeConnectionRefusedError" "connect ECONNREFUSED".

Definition validation_error : Error :=
  mkError "SequelizeValidationError" "notNull Violation: a required attribute is missing".

Definition database_error (what : string) : Error :=
  mkError "SequelizeDatabaseError" what.

(** Modelled from the spec: association expansion puts the related Student
    or Teacher records inline in the Course. *)
Definition load (s : Store) (r : CourseRow) (m : Model) : string * json :=
  match m with
  | Student =>
      ("Students",
       JArr (map snd (filter (fun e => fst e =? id r) (enrolled s))))
  | Teacher =>
      ("Teacher",
       match find (fun t => fst t =? TeacherId r) (teachers s) with
       | Some t => snd t
       | None => JNull
       end)
  end.

Definition instance_of (s : Store) (options : option FindOptions) (r : CourseRow)
  : Instance :=
  mkInstance r
    (match options with
     | Some {| include := Some models |} => map (load s r) models
     | _ => []
     end).

(** Modelled from the spec: the ordering the database applies, as a stable
    insertion sort of the rows by a comparison. *)
Fixpoint insert_by (le : CourseRow -> CourseRow -> bool) (r : CourseRow)
  (l : list CourseRow) : list CourseRow :=
  match l with
  | [] => [r]
  | x :: rest => if le r x then r :: l else x :: insert_by le r rest
  end.

Definition sort_by (le : CourseRow -> CourseRow -> bool) (l : list CourseRow)
  : list CourseRow :=
  fold_right (insert_by le) [] l.

(** Modelled from the spec: records ordered by creation timestamp in the
    requested direction; any other ordering is refused. *)
Definition ordered (order : option (list (string * string))) (l : list CourseRow)
  : Result (list CourseRow) :=
  match order with
  | None => inr l
  | Some [(column, direction)] =>
      if String.eqb column "createdAt" then
        if String.eqb direction "DESC"
        then inr (sort_by (fun a b => createdAt b <=? createdAt a) l)
        else inr (sort_by (fun a b => createdAt a <=? createdAt b) l)
      else inl (database_error "Unknown column in order clause")
  | Some _ => inl (database_error "Unsupported order clause")
  end.

(** Modelled from the spec: a row count given as LIMIT or OFFSET; absent
    is [default], and the database refuses a negative or non-integer
    value. *)
Definition row_count (what : string) (default : nat) (n : option Js.number)
  : Result nat :=
  match n with
  | None => inr default
  | Some (Js.Int z) =>
      if z <? 0 then inl (database_error (what ++ " must not be negative"))
      else inr (Z.to_nat z)
  | Some _ => inl (database_error (what ++ " must be an integer"))
  end.

(** Modelled from the spec: a page of records in the requested order,
    after skipping [offset] rows and keeping at most [limit]. *)
Definition findAll (options : FindOptions) (s : Store) : Result (list Instance) :=
  match ordered (order options) (courses s) with
  | inl e => inl e
  | inr rows =>
      match row_count "OFFSET" 0%nat (offset options) with
      | inl e => inl e
      | inr skip =>
          match row_count "LIMIT" (List.length rows) (limit options) with
          | inl e => inl e
          | inr keep =>
              inr (map (instance_of s (Some options)) (firstn keep (skipn skip rows)))
          end
      end
  end.

(** Modelled from the spec: the primary key as the route parameter spells
    it, in decimal. *)
Definition pk_string (i : Z) : string := NilZero.string_of_int (Z.to_int i).

Definition has_pk (pk : string) (r : CourseRow) : bool :=
  String.eqb (pk_string (id r)) pk.

(** Modelled from the spec: the fetch by identifier, [null] when no row
    carries it. *)
Definition findByPk (pk : string) (options : option FindOptions) (s : Store)
  : option Instance :=
  option_map (instance_of s options) (find (has_pk pk) (courses s)).

(** Modelled from the spec: title, description and teacher reference are
    required at creation; identifier and timestamps are assigned by the
    system. *)
Definition create (values : json) (s : Store) : Result Instance * Store :=
  match json_get "title" values, json_get "description" values,
        json_get "TeacherId" values with
  | Some (JStr t), Some (JStr d), Some (JNum (Js.Int teacher)) =>
      let r := mkCourseRow (next_id s) t d teacher (clock s) (clock s) in
      (inr (mkInstance r []),
       mkStore (courses s ++ [r])%list (enrolled s) (teachers s)
               (next_id s + 1) (clock s + 1) (connected s))
  | _, _, _ => (inl validation_error, s)
  end.

(** Modelled from the spec: a partial update applies the body keys that
    name a persisted attribute; the identifier does not change. *)
Definition patch (values : json) (now : Z) (r : CourseRow) : CourseRow :=
  mkCourseRow (id r)
    (match json_get "title" values with Some (JStr t) => t | _ => title r end)
    (match json_get "description" values with Some (JStr d) => d | _ => description r end)
    (match json_get "TeacherId" values with Some (JNum (Js.Int t)) => t | _ => TeacherId r end)
    (match json_get "createdAt" values with Some (JNum (Js.Int t)) => t | _ => createdAt r end)
    (match json_get "updatedAt" values with Some (JNum (Js.Int t)) => t | _ => now end).

Definition update (course : Instance) (values : json) (s : Store)
  : Result Instance * Store :=
  let r := patch values (clock s) (row course) in
  (inr (mkInstance r (loaded course)),
   mkStore (map (fun x => if id x =? id r then r else x) (courses s))
           (enrolled s) (teachers s) (next_id s) (clock s + 1) (connected s)).

(** Modelled from the spec: deletion removes the row for good. *)
Definition destroy (course : Instance) (s : Store) : Result unit * Store :=
  (inr tt,
   mkStore (filter (fun x => negb (id x =? id (row course))) (courses s))
           (enrolled s) (teachers s) (next_id s) (clock s) (connected s)).

(** Modelled from the spec: the collaborator as a whole.  Every call fails
    with the connection error while the database is unreachable; reads
    leave the store as it is. *)
Definition exec (X : Type) (c : Call X) (s : Store) : Result X * Store :=
  if connected s then
    match c in Call X return Result X * Store with
    | Create values => create values s
    | Count => (inr (Z.of_nat (List.length (courses s))), s)
    | FindAll options => (findAll options s, s)
    | FindByPk pk options => (inr (findByPk pk options s), s)
    | Update course values => update course values s
    | Destroy course => destroy course s
    end
  else (inl connection_error, s).

Definition db : DataAccess := mkDataAccess Store exec.

(** Three courses created at times 10, 20 and 30. *)
Definition sample : Store :=
  mkStore [ mkCourseRow 1 "Algebra" "Intro" 3 10 10;
            mkCourseRow 2 "Biology" "Cells" 4 20 20;
            mkCourseRow 3 "Chemistry" "Atoms" 3 30 30 ]
          [ (1, JObj [("name", JStr "Ann")]); (1, JObj [("name", JStr "Bob")]) ]
          [ (3, JObj [("name", JStr "Ms. Lee")]) ]
          4 31 true.

Definition offline : Store :=
  mkStore (courses sample) (enrolled sample) (teachers sample) 4 31 false.

End MemDb.

(** The error an event carries, for reading a trace. *)
Definition thrown_of (ev : Event) : option Error :=
  match ev with
  | Called _ thrown => thrown
  | Logged _ => None
  end.

(** The envelope of the list response:
    [{ meta: { totalItems, page, totalPages }, data }]. *)
Definition list_envelope (totalItems : Js.number) (page totalPages : Js.number)
  (data : list json) : json :=
  JObj [ ("meta", JObj [ ("totalItems", JNum totalItems);
                         ("page", JNum page);
                         ("totalPages", JNum totalPages) ]);
         ("data", JArr data) ].

(** [body.meta.totalItems] of a response. *)
Definition totalItems_of (r : Response) : option json :=
  match json_get "meta" (sent r) with
  | Some meta => json_get "totalItems" meta
  | None => None
  end.

(** The tokens of a [populate] parameter: its comma-separated pieces,
    each trimmed and lowercased; none when the parameter is absent. *)
Definition populate_tokens (populate : option QueryValue) : list string :=
  match populate with
  | Some (QString raw) =>
      map (fun p => Js.toLowerCase (Js.trim p)) (Js.split_comma raw)
  | _ => []
  end.

(** The models of an [include] option; [undefined] includes none. *)
Definition included (options : FindOptions) : list Model :=
  match include options with
  | Some models => models
  | None => []
  end.

(** A GET request with the given query string parameters. *)
Definition get_request (q : list (string * string)) (pk : string) : Request :=
  mkRequest JNull (map (fun kv => (fst kv, QString (snd kv))) q) pk.

(** [GET /courses?sort=desc] *)
Definition newest_first_request : Request :=
  get_request [("sort", "desc")] "".

(** [GET /courses?limit=-2&page=-3] *)
Definition negative_page_request : Request :=
  get_request [("limit", "-2"); ("page", "-3")] "".

(** The options [getAllCourses] builds for [negative_page_request]. *)
Definition negative_page_options : FindOptions :=
  {| include := None;
     limit := Some (Js.Int (-2));
     offset := Some (Js.Int 8);
     order := Some [("createdAt", "ASC")] |}.

(** ** Reading traces and building requests *)

(** Events that are calls on the models. *)
Definition is_call (ev : Event) : bool :=
  match ev with
  | Called _ _ => true
  | Logged _ => false
  end.

(** Calls that only read: [count], [findAll] and [findByPk]. *)
Definition is_read {X : Type} (c : Call X) : bool :=
  match c with
  | Count => true
  | FindAll _ => true
  | FindByPk _ _ => true
  | _ => false
  end.

(** The values of a [create] call, for reading a trace. *)
Definition create_call (ev : Event) : option json :=
  match ev with
  | Called (Create values) _ => Some values
  | _ => None
  end.

(** The instance and values of an [update] call, for reading a trace. *)
Definition update_call (ev : Event) : option (Instance * json) :=
  match ev with
  | Called (Update course values) _ => Some (course, values)
  | _ => None
  end.

(** The instance of a [destroy] call, for reading a trace. *)
Definition destroy_call (ev : Event) : option Instance :=
  match ev with
  | Called (Destroy course) _ => Some course
  | _ => None
  end.

(** [String(z)] for an integer: its decimal digits, after a minus sign
    when it is negative. *)
Definition decimal (z : Z) : string := NilZero.string_of_int (Z.to_int z).

(** [body.meta.page] and [body.meta.totalPages] of a response. *)
Definition meta_of (key : string) (r : Response) : option json :=
  match json_get "meta" (sent r) with
  | Some meta => json_get key meta
  | None => None
  end.

(** Whether a string has a comma. *)
Fixpoint has_comma (s : string) : bool :=
  match s with
  | String c rest => Ascii.eqb c ","%char || has_comma rest
  | EmptyString => false
  end.

(** The first and the last character of a string. *)
Definition first_char (s : string) : option ascii :=
  match s with
  | String c _ => Some c
  | EmptyString => None
  end.

(** Whether a character is an upper-case letter A to Z. *)
Definition is_upper (c : ascii) : bool :=
  (65 <=? Js.code c) && (Js.code c <=? 90).

Fixpoint has_upper (s : string) : bool :=
  match s with
  | String c rest => is_upper c || has_upper rest
  | EmptyString => false
  end.

(** The white space and line terminators of ECMAScript, by code point:
    TAB, LF, VT, FF, CR, SP, U+00A0, U+1680, U+2000 to U+200A, U+2028,
    U+2029, U+202F, U+205F, U+3000 and U+FEFF. *)
Definition white_space_code_points : list Z :=
  [ 9; 10; 11; 12; 13; 32; 160; 5760;
    8192; 8193; 8194; 8195; 8196; 8197; 8198; 8199; 8200; 8201; 8202;
    8232; 8233; 8239; 8287; 12288; 65279 ].

Definition byte (z : Z) : ascii := ascii_of_N (Z.to_N z).

(** The UTF-8 encoding of a code point. *)
Definition utf8 (cp : Z) : string :=
  if cp <? 128 then String (byte cp) ""
  else if cp <? 2048 then
    String (byte (192 + cp / 64)) (String (byte (128 + cp mod 64)) "")
  else if cp <? 65536 then
    String (byte (224 + cp / 4096))
      (String (byte (128 + (cp / 64) mod 64))
         (String (byte (128 + cp mod 64)) ""))
  else
    String (byte (240 + cp / 262144))
      (String (byte (128 + (cp / 4096) mod 64))
         (String (byte (128 + (cp / 64) mod 64))
            (String (byte (128 + cp mod 64)) ""))).

(** A string of white-space characters only. *)
Inductive white : string -> Prop :=
| white_empty : white ""
| white_more (cp : Z) (s : string) :
    In cp white_space_code_points -> white s -> white (utf8 cp ++ s).

(** [t] is [s] without the white space at its ends: [s] is [t] between
    two runs of white space, and [t] neither starts nor ends with a
    white-space character. *)
Definition trimmed (s t : string) : Prop :=
  (exists lead trail, s = lead ++ t ++ trail /\ white lead /\ white trail)
  /\ (forall cp rest, In cp white_space_code_points -> t <> utf8 cp ++ rest)
  /\ (forall cp rest, In cp white_space_code_points -> t <> rest ++ utf8 cp).

(** The largest magnitude below which every integer is a double. *)
Definition safe (z : Z) : Prop := Z.abs z < 2 ^ 53.

(** A creation payload with the three required attributes. *)
Definition drawing_course : json :=
  JObj [ ("title", JStr "Drawing"); ("description", JStr "Pencils");
         ("TeacherId", JNum (Js.Int 4)) ].

(** A [populate] parameter with a no-break space before the first token,
    a line separator before the second and a byte-order mark at the end. *)
Definition spaced_populate : string :=
  utf8 160 ++ "Students," ++ utf8 8232 ++ "bogus ,TEACHERS" ++ utf8 65279.

(** * Properties *)

(** ** The JavaScript helpers *)

(** ** Numbers *)

(** An integer below 2^53 in magnitude is a double. *)
Lemma round_safe (z : Z) : safe z -> Js.round z = Js.Int z.
Proof.
  unfold safe, Js.round. intros H.
  destruct (Z.ltb_spec (Z.abs z) (2 ^ 53)) as [_ | Hge]; [reflexivity | lia].
Qed.

(** The double nearest to a nonzero integer is not zero. *)
Lemma round_truthy (z : Z) : z <> 0 -> Js.truthy (Js.round z) = true.
Proof.
  intros Hz. unfold Js.round.
  destruct (Z.ltb_spec (Z.abs z) (2 ^ 53)) as [_ | Hge].
  - destruct z; [contradiction | reflexivity ..].
  - cbv zeta.
    set (e := Z.log2 (Z.abs z) - 52).
    set (q := Z.abs z / 2 ^ e).
    set (m := if Z.abs z mod 2 ^ e <? 2 ^ (e - 1) then q
              else if 2 ^ (e - 1) <? Z.abs z mod 2 ^ e then q + 1
              else if Z.even q then q else q + 1).
    assert (Hlog : 53 <= Z.log2 (Z.abs z)).
    { change 53 with (Z.log2 (2 ^ 53)). apply Z.log2_le_mono. exact Hge. }
    assert (He : 0 < 2 ^ e) by (apply Z.pow_pos_nonneg; unfold e; lia).
    assert (Hq : 1 <= q).
    { unfold q. apply Z.div_le_lower_bound; [exact He|].
      rewrite Z.mul_1_r.
      apply Z.le_trans with (2 ^ Z.log2 (Z.abs z)).
      - apply Z.pow_le_mono_r; unfold e; lia.
      - apply Z.log2_spec. lia. }
    assert (Hm : 1 <= m).
    { unfold m. repeat match goal with |- context [if ?b then _ else _] => destruct b end; lia. }
    destruct (2 ^ 1024 <=? m * 2 ^ e).
    + unfold Js.sign_inf. destruct (0 <? z); reflexivity.
    + assert (Hpos : 0 < m * 2 ^ e) by (apply Z.mul_pos_pos; lia).
      assert (Hnz : Z.sgn z * (m * 2 ^ e) <> 0).
      { destruct z; [contradiction | change (Z.sgn (Z.pos p)) with 1; lia
                    | change (Z.sgn (Z.neg p)) with (-1); lia]. }
      destruct (Z.sgn z * (m * 2 ^ e)); [contradiction | reflexivity ..].
Qed.

(** Rounding gives a double of integer value or an infinity. *)
Lemma round_cases (z : Z) :
  Js.round z = Js.PosInfinity \/ Js.round z = Js.NegInfinity
  \/ exists v, Js.round z = Js.Int v.
Proof.
  unfold Js.round.
  destruct (Z.abs z <? 2 ^ 53); [right; right; eexists; reflexivity|].
  cbv zeta.
  match goal with |- context [if ?b then Js.sign_inf _ else _] => destruct b end.
  - unfold Js.sign_inf. destruct (0 <? z); auto.
  - right; right; eexists; reflexivity.
Qed.

Lemma parseInt_string_cases (s : string) :
  Js.parseInt_string s = Js.NaN
  \/ Js.parseInt_string s = Js.PosInfinity
  \/ Js.parseInt_string s = Js.NegInfinity
  \/ exists z, Js.parseInt_string s = Js.Int z.
Proof.
  unfold Js.parseInt_string.
  destruct (match Js.trimStart s with
            | String "-"%char rest => (-1, rest)
            | String "+"%char rest => (1, rest)
            | _ => (1, Js.trimStart s)
            end) as [sign s2].
  destruct (match s2 with
            | String "0"%char (String "x"%char rest) => (16, rest)
            | String "0"%char (String "X"%char rest) => (16, rest)
            | _ => (10, s2)
            end) as [R s3].
  destruct (Js.read_digits R s3 None) as [m|]; [|left; reflexivity].
  right. destruct (round_cases (sign * m)) as [E | [E | E]]; auto.
Qed.

Lemma parseInt_cases (v : option string) :
  Js.parseInt v = Js.NaN
  \/ Js.parseInt v = Js.PosInfinity
  \/ Js.parseInt v = Js.NegInfinity
  \/ exists z, Js.parseInt v = Js.Int z.
Proof. unfold Js.parseInt. apply parseInt_string_cases. Qed.

(** [a || d] with a nonzero default is never NaN and never zero: it is
    [a] when [a] is truthy and the default otherwise. *)
Lemma or_default (a : Js.number) (d : Z) :
  d <> 0 ->
  Js.or a (Js.Int d) <> Js.NaN
  /\ Js.or a (Js.Int d) <> Js.Int 0
  /\ (Js.truthy a = true -> Js.or a (Js.Int d) = a)
  /\ (Js.truthy a = false -> Js.or a (Js.Int d) = Js.Int d).
Proof.
  intros Hd. unfold Js.or.
  destruct a as [| | |[|p|p]]; simpl; repeat split;
    try discriminate; try reflexivity; congruence.
Qed.

(** The ceiling of a quotient with a positive divisor, by its defining
    inequalities. *)
Lemma Qceiling_quotient (x y : Z) :
  0 < y ->
  (Qceiling (inject_Z x / inject_Z y) - 1) * y < x
  /\ x <= Qceiling (inject_Z x / inject_Z y) * y.
Proof.
  intros Hy. destruct y as [|p|p]; try lia.
  unfold Qceiling, Qfloor, Qdiv, Qmult, Qinv, Qopp, inject_Z. simpl.
  rewrite Z.mul_1_r.
  pose proof (Z.div_mod (- x) (Z.pos p) ltac:(lia)) as Hdm.
  pose proof (Z.mod_pos_bound (- x) (Z.pos p) ltac:(lia)) as Hb.
  nia.
Qed.


(** ** White space and trimming *)

Lemma append_empty (s : string) : s ++ "" = s.
Proof. induction s as [|c rest IH]; simpl; [reflexivity | rewrite IH; reflexivity]. Qed.

Lemma append_assoc (a b c : string) : (a ++ b) ++ c = a ++ (b ++ c).
Proof. induction a as [|x a IH]; simpl; [reflexivity | rewrite IH; reflexivity]. Qed.

Lemma length_append (a b : string) :
  String.length (a ++ b) = (String.length a + String.length b)%nat.
Proof. induction a as [|x a IH]; simpl; [reflexivity | rewrite IH; reflexivity]. Qed.

Lemma byte_code (c : ascii) : byte (Js.code c) = c.
Proof. unfold byte, Js.code. rewrite N2Z.id. apply ascii_N_embedding. Qed.

Lemma utf8_not_empty (cp : Z) : utf8 cp <> "".
Proof.
  unfold utf8. destruct (cp <? 128); [discriminate|].
  destruct (cp <? 2048); [discriminate|].
  destruct (cp <? 65536); discriminate.
Qed.

(** A character whose code is known is that byte. *)
Ltac pin_bytes :=
  repeat match goal with
         | H : Js.code ?c = ?k |- _ =>
             is_var c;
             let E := fresh in
             assert (E : c = byte k) by (rewrite <- (byte_code c), H; reflexivity);
             clear H; subst c
         end.

(** Boolean tests on codes, as propositions. *)
Ltac code_tests H :=
  repeat first
    [ rewrite orb_true_iff in H
    | rewrite andb_true_iff in H
    | rewrite Z.eqb_eq in H
    | rewrite Z.leb_le in H ].

Ltac in_code_points := vm_compute; tauto.

(** [skip_white] drops exactly the encoding of one white-space character. *)
Lemma skip_white_sound (s r : string) :
  Js.skip_white s = Some r ->
  exists cp, In cp white_space_code_points /\ s = utf8 cp ++ r.
Proof.
  destruct s as [|c rest]; [discriminate|]. cbn [Js.skip_white].
  destruct (Js.white_space_1 c) eqn:W1.
  { intros [= <-]. exists (Js.code c).
    unfold Js.white_space_1 in W1. code_tests W1.
    assert (H : Js.code c = 9 \/ Js.code c = 10 \/ Js.code c = 11
                \/ Js.code c = 12 \/ Js.code c = 13 \/ Js.code c = 32) by lia.
    clear W1.
    repeat destruct H as [H | H]; rewrite H; pin_bytes;
      (split; [in_code_points | reflexivity]). }
  destruct rest as [|d rest2]; [discriminate|].
  destruct (Js.white_space_2 c d) eqn:W2.
  { intros [= <-]. exists 160.
    unfold Js.white_space_2 in W2. code_tests W2. destruct W2 as [Hc Hd].
    pin_bytes. split; [in_code_points | reflexivity]. }
  destruct rest2 as [|e rest3]; [discriminate|].
  destruct (Js.white_space_3 c d e) eqn:W3; [|discriminate].
  intros [= <-].
  exists ((Js.code c - 224) * 4096 + (Js.code d - 128) * 64 + (Js.code e - 128)).
  unfold Js.white_space_3 in W3. code_tests W3.
  assert (H :
    (Js.code c = 225 /\ Js.code d = 154 /\ Js.code e = 128)
    \/ (Js.code c = 226 /\ Js.code d = 128
        /\ (Js.code e = 128 \/ Js.code e = 129 \/ Js.code e = 130
            \/ Js.code e = 131 \/ Js.code e = 132 \/ Js.code e = 133
            \/ Js.code e = 134 \/ Js.code e = 135 \/ Js.code e = 136
            \/ Js.code e = 137 \/ Js.code e = 138 \/ Js.code e = 168
            \/ Js.code e = 169 \/ Js.code e = 175))
    \/ (Js.code c = 226 /\ Js.code d = 129 /\ Js.code e = 159)
    \/ (Js.code c = 227 /\ Js.code d = 128 /\ Js.code e = 128)
    \/ (Js.code c = 239 /\ Js.code d = 187 /\ Js.code e = 191)) by lia.
  clear W1 W2 W3.
  repeat match type of H with
         | _ \/ _ => destruct H as [H | H]
         end;
    destruct H as (Hc & Hd & He);
    repeat match type of He with
           | _ \/ _ => destruct He as [He | He]
           end;
    rewrite Hc, Hd, He; pin_bytes;
    (split; [in_code_points | reflexivity]).
Qed.

Lemma skip_white_complete (cp : Z) (r : string) :
  In cp white_space_code_points ->
  Js.skip_white (utf8 cp ++ r) = Some r.
Proof.
  intros H. simpl in H.
  repeat destruct H as [<- | H]; try reflexivity. destruct H.
Qed.

Lemma skip_white_shorter (s r : string) :
  Js.skip_white s = Some r -> (String.length r < String.length s)%nat.
Proof.
  intros H. destruct (skip_white_sound s r H) as (cp & _ & ->).
  rewrite length_append. pose proof (utf8_not_empty cp) as Hne.
  destruct (utf8 cp); [contradiction | simpl; lia].
Qed.

Lemma trimStart_unfold (s : string) :
  Js.trimStart s
  = match Js.skip_white s with
    | Some r => Js.trimStart r
    | None => s
    end.
Proof.
  destruct s as [|c rest]; [reflexivity|]. cbn [Js.trimStart Js.skip_white].
  destruct (Js.white_space_1 c); [reflexivity|].
  destruct rest as [|d rest2]; [reflexivity|].
  destruct (Js.white_space_2 c d); [reflexivity|].
  destruct rest2 as [|e rest3]; [reflexivity|].
  destruct (Js.white_space_3 c d e); reflexivity.
Qed.

(** What [trimStart] drops is white space. *)
Lemma trimStart_white (s : string) :
  exists lead, s = lead ++ Js.trimStart s /\ white lead.
Proof.
  remember (String.length s) as n eqn:En. revert s En.
  induction n as [n IH] using lt_wf_ind. intros s En.
  rewrite (trimStart_unfold s).
  destruct (Js.skip_white s) as [r|] eqn:E.
  - destruct (skip_white_sound s r E) as (cp & Hcp & Hs).
    pose proof (skip_white_shorter s r E) as Hlt.
    destruct (IH (String.length r) ltac:(lia) r eq_refl) as (lead & Hr & Hw).
    exists (utf8 cp ++ lead). split.
    + rewrite append_assoc, <- Hr. exact Hs.
    + apply white_more; assumption.
  - exists "". split; [reflexivity | apply white_empty].
Qed.

(** What [trimStart] leaves does not start with white space. *)
Lemma trimStart_stable (s : string) : Js.skip_white (Js.trimStart s) = None.
Proof.
  remember (String.length s) as n eqn:En. revert s En.
  induction n as [n IH] using lt_wf_ind. intros s En.
  rewrite (trimStart_unfold s).
  destruct (Js.skip_white s) as [r|] eqn:E; [|exact E].
  pose proof (skip_white_shorter s r E) as Hlt.
  exact (IH (String.length r) ltac:(lia) r eq_refl).
Qed.

(** [trimStart] runs through leading white space. *)
Lemma trimStart_through (u w : string) :
  white u -> Js.trimStart (u ++ w) = Js.trimStart w.
Proof.
  induction 1 as [|cp u Hcp Hu IH]; [reflexivity|].
  rewrite append_assoc, trimStart_unfold, (skip_white_complete cp _ Hcp).
  exact IH.
Qed.

Lemma all_white_white (w : string) : Js.all_white w = true <-> white w.
Proof.
  unfold Js.all_white. rewrite String.eqb_eq. split.
  - intros E. destruct (trimStart_white w) as (lead & Hw & Hlead).
    rewrite E, append_empty in Hw. subst. exact Hlead.
  - intros H. rewrite <- (append_empty w). apply (trimStart_through w "" H).
Qed.

(** What [trimEnd] drops is white space. *)
Lemma trimEnd_white (s : string) :
  exists trail, s = Js.trimEnd s ++ trail /\ white trail.
Proof.
  induction s as [|c rest IH]; [exists ""; split; [reflexivity | apply white_empty]|].
  cbn [Js.trimEnd].
  destruct (Js.all_white (String c rest)) eqn:W.
  - exists (String c rest). split; [reflexivity | apply all_white_white; exact W].
  - destruct IH as (trail & Hrest & Hw). exists trail. split; [|exact Hw].
    simpl. rewrite <- Hrest. reflexivity.
Qed.

(** [trimEnd] keeps nothing of a white tail. *)
Lemma trimEnd_short (pre suf : string) :
  suf <> "" -> white suf ->
  (String.length (Js.trimEnd (pre ++ suf)) <= String.length pre)%nat.
Proof.
  intros Hne Hw. apply all_white_white in Hw.
  induction pre as [|c pre IH].
  - simpl. destruct suf as [|c r]; [contradiction|].
    cbn [Js.trimEnd]. rewrite Hw. simpl. lia.
  - cbn [append Js.trimEnd].
    destruct (Js.all_white (String c (pre ++ suf))); simpl; lia.
Qed.

(** What [trimEnd] leaves does not end with white space. *)
Lemma trimEnd_stable (s rest : string) (cp : Z) :
  In cp white_space_code_points -> Js.trimEnd s <> rest ++ utf8 cp.
Proof.
  intros Hcp E. destruct (trimEnd_white s) as (trail & Hs & Hw).
  assert (Hs' : s = rest ++ (utf8 cp ++ trail)).
  { rewrite <- append_assoc, <- E. exact Hs. }
  assert (Hne : utf8 cp ++ trail <> "").
  { pose proof (utf8_not_empty cp). destruct (utf8 cp); [contradiction | discriminate]. }
  pose proof (trimEnd_short rest (utf8 cp ++ trail) Hne (white_more cp trail Hcp Hw))
    as Hlen.
  rewrite <- Hs', E, length_append in Hlen.
  pose proof (utf8_not_empty cp) as Hcpne.
  destruct (utf8 cp); [contradiction | simpl in Hlen; lia].
Qed.

(** [trim] is trimming: the string is its result between two runs of
    white space, and the result has white space at neither end. *)
Lemma trim_trimmed (s : string) : trimmed s (Js.trim s).
Proof.
  unfold trimmed, Js.trim.
  destruct (trimStart_white s) as (lead & Hs & Hlead).
  destruct (trimEnd_white (Js.trimStart s)) as (trail & Ht & Htrail).
  split; [|split].
  - exists lead, trail. split; [|split; assumption].
    rewrite <- Ht. exact Hs.
  - intros cp rest Hcp E.
    pose proof (trimStart_stable s) as Hstable.
    rewrite Ht, E, append_assoc, (skip_white_complete cp _ Hcp) in Hstable.
    discriminate Hstable.
  - intros cp rest Hcp. apply trimEnd_stable. exact Hcp.
Qed.

(** ** Splitting at commas *)

(** Joining the pieces with commas gives the string back. *)
Lemma split_comma_join (s : string) :
  String.concat "," (Js.split_comma s) = s.
Proof.
  induction s as [|c rest IH]; [reflexivity|].
  simpl. destruct (Ascii.eqb_spec c ","%char) as [-> | Hc].
  - simpl. destruct (Js.split_comma rest) as [|p ps] eqn:E.
    + simpl in IH. subst rest. discriminate E.
    + simpl in *. rewrite IH. reflexivity.
  - destruct (Js.split_comma rest) as [|p ps] eqn:E.
    + simpl in IH. subst rest. discriminate E.
    + simpl in *. destruct ps; simpl in *; rewrite IH; reflexivity.
Qed.

(** No piece of a split has a comma. *)
Lemma split_comma_pieces_no_comma (s p : string) :
  In p (Js.split_comma s) -> has_comma p = false.
Proof.
  revert p. induction s as [|c rest IH]; simpl; intros p H.
  - destruct H as [<- | []]. reflexivity.
  - destruct (Ascii.eqb c ","%char) eqn:Ec.
    + destruct H as [<- | H]; [reflexivity | auto].
    + destruct (Js.split_comma rest) as [|piece pieces].
      * destruct H as [<- | []]. simpl. rewrite Ec. reflexivity.
      * destruct H as [<- | H].
        -- simpl. rewrite Ec. apply IH. left. reflexivity.
        -- apply IH. right. exact H.
Qed.

(** ** The handlers against an arbitrary collaborator *)

Import CourseController.

(** Case analysis on the answer of the next awaited call. *)
Ltac await_answer :=
  match goal with
  | |- context [exec ?d ?c ?s] =>
      let E := fresh "Answer" in
      destruct (exec d c s) as [[?err | ?val] ?s'] eqn:E; simpl
  end.

(** Case analysis on whether the populate expression throws. *)
Ltac populate_case :=
  match goal with
  | |- context [populate_throws ?r] =>
      let E := fresh "Populate" in
      destruct (populate_throws r) as [?type_error | ] eqn:E; simpl
  end.

(** An event of a trace that threw [e] was answered with [e]. *)
Ltac same_error H :=
  apply (f_equal thrown_of) in H; simpl in H;
  first [ discriminate H | injection H as H; subst ].

Section Collaborator.

Variable db : DataAccess.

(** When the populate expression throws, [getAllCourses] ends there:
    uncaught, with no call made and the store untouched. *)
Lemma getAllCourses_uncaught (req : Request) (s : Store db) (e : Error) :
  populate_throws req = Some e ->
  run db (getAllCourses req) s = mkOutcome (inl e) s [].
Proof. unfold getAllCourses. intros ->. reflexivity. Qed.

(** The calls of [getAllCourses]: none when the populate expression
    throws; otherwise the count, and the page when the count succeeded. *)
Lemma getAllCourses_trace (req : Request) (s : Store db) :
  trace (run db (getAllCourses req) s) = []
  \/ exists first second,
       trace (run db (getAllCourses req) s)
       = (Called Count first
          :: match first with
             | None => [Called (FindAll (findAll_options req)) second]
             | Some e => []
             end
          ++ match first, second with
             | Some e, _ | None, Some e => [Logged e]
             | None, None => []
             end)%list.
Proof.
  unfold getAllCourses; simpl. populate_case; [left; reflexivity | right].
  await_answer.
  - exists (Some err), None. reflexivity.
  - await_answer.
    + exists None, (Some err). reflexivity.
    + exists None, None. reflexivity.
Qed.

(** Every [findAll] call of [getAllCourses] carries [findAll_options]. *)
Lemma getAllCourses_findAll_options (req : Request) (s : Store db)
  (options : FindOptions) (thrown : option Error) :
  In (Called (FindAll options) thrown) (trace (run db (getAllCourses req) s)) ->
  options = findAll_options req.
Proof.
  destruct (getAllCourses_trace req s) as [-> | (first & second & ->)];
    [intros [] |].
  intros H. apply (in_map findAll_call) in H. simpl in H.
  destruct first as [e|]; [|destruct second as [e|]]; simpl in H;
    intuition congruence.
Qed.

(** A [findAll] call is made only when the populate expression did not
    throw. *)
Lemma getAllCourses_call_populate (req : Request) (s : Store db) (ev : Event) :
  In ev (trace (run db (getAllCourses req) s)) ->
  populate_throws req = None.
Proof.
  destruct (populate_throws req) as [e|] eqn:E; [|reflexivity].
  rewrite (getAllCourses_uncaught req s e E). intros [].
Qed.

(** A successful [getAllCourses]: the count and the page both resolved,
    and the response is the envelope built from them. *)
Lemma getAllCourses_success (req : Request) (s : Store db) (r : Response) :
  response (run db (getAllCourses req) s) = Some r ->
  status r = 200 ->
  exists total courses,
    fst (exec db Count s) = inr total
    /\ fst (exec db (FindAll (findAll_options req)) (snd (exec db Count s)))
       = inr courses
    /\ sent r = list_envelope (Js.Int total) (page_of req)
                  (Js.ceil_div (Js.Int total) (limit_of req))
                  (map toJSON courses).
Proof.
  unfold getAllCourses, response; simpl. populate_case; [discriminate|].
  await_answer.
  - intros [= <-]. discriminate.
  - await_answer.
    + intros [= <-]. discriminate.
    + intros [= <-] _. exists val, val0. auto.
Qed.

(** ** Not found *)

(** C1 (as amended): for every identifier for which the fetch by primary
    key resolves to no record, each of [getCourseById], [updateCourse] and
    [deleteCourse] responds with status 404 and the body
    [{ message: 'Not found' }]. *)
Theorem not_found_response (op : Operation) (req : Request) (s : Store db) :
  op = OpGetCourseById \/ op = OpUpdateCourse \/ op = OpDeleteCourse ->
  (forall options, fst (exec db (FindByPk (params_id req) options) s) = inr None) ->
  response (run db (handler op req) s)
  = Some (res_status_json 404 (JObj [("message", JStr "Not found")])).
Proof.
  intros Hop Hnone.
  destruct Hop as [-> | [-> | ->]];
    unfold handler, getCourseById, updateCourse, deleteCourse, response; simpl;
    match goal with
    | |- context [exec db (FindByPk ?pk ?o) s] =>
        pose proof (Hnone o) as H;
        destruct (exec db (FindByPk pk o) s) as [answer s']
    end;
    simpl in H; subst answer; reflexivity.
Qed.

(** C8: for every identifier for which the fetch by primary key resolves to
    no record, [updateCourse] and [deleteCourse] answer not-found having
    made the fetch and no other call, so no update or destroy is issued;
    with a collaborator whose [findByPk] only reads, the store after the
    request is the store before it. *)
Theorem not_found_no_mutation (op : Operation) (req : Request) (s : Store db) :
  op = OpUpdateCourse \/ op = OpDeleteCourse ->
  (forall pk options st, snd (exec db (FindByPk pk options) st) = st) ->
  fst (exec db (FindByPk (params_id req) None) s) = inr None ->
  response (run db (handler op req) s) = Some not_found
  /\ trace (run db (handler op req) s)
     = [Called (FindByPk (params_id req) None) None]
  /\ existsb is_mutation (trace (run db (handler op req) s)) = false
  /\ final (run db (handler op req) s) = s.
Proof.
  intros Hop Hreads Hnone.
  pose proof (Hreads (params_id req) None s) as Hs.
  destruct Hop as [-> | ->];
    unfold handler, updateCourse, deleteCourse, response; simpl;
    destruct (exec db (FindByPk (params_id req) None) s) as [answer s'];
    simpl in Hnone, Hs; subst answer s'; simpl; auto.
Qed.

(** ** Internal failures *)

(** C4: in every one of the five handlers, when a call on the models
    throws an error, the response is status 500 with the body
    [{ error: <that error's message> }], whatever the error is. *)
Theorem collaborator_error_gives_500 (op : Operation) (req : Request)
  (s : Store db) (X : Type) (c : Call X) (e : Error) :
  In (Called c (Some e)) (trace (run db (handler op req) s)) ->
  response (run db (handler op req) s)
  = Some (res_status_json 500 (JObj [("error", JStr (message e))])).
Proof.
  destruct op; unfold handler, createCourse, getAllCourses, getCourseById,
    updateCourse, deleteCourse, response; simpl;
    try populate_case;
    try await_answer;
    try (destruct val; simpl);
    try await_answer;
    intros H;
    repeat (destruct H as [H | H]; [same_error H; try reflexivity |]);
    try contradiction.
Qed.

(** ** The list operation *)

(** C5: every [findAll] call of [getAllCourses] orders by [createdAt] only,
    in direction ['DESC'] exactly when the [sort] parameter is the string
    ['desc'], and in direction ['ASC'] for every other value and when the
    parameter is absent. *)
Theorem getAllCourses_sort_direction (req : Request) (s : Store db)
  (options : FindOptions) (thrown : option Error) :
  In (Called (FindAll options) thrown) (trace (run db (getAllCourses req) s)) ->
  exists direction,
    order options = Some [("createdAt", direction)]
    /\ (direction = "DESC" <-> lookup "sort" (query req) = Some (QString "desc"))
    /\ (direction = "ASC" <-> lookup "sort" (query req) <> Some (QString "desc")).
Proof.
  intros H. apply getAllCourses_findAll_options in H. subst options.
  exists (sortOrder_of req). split; [reflexivity|].
  unfold sortOrder_of.
  destruct (lookup "sort" (query req)) as [[v | items | fields]|].
  - destruct (String.eqb_spec v "desc") as [-> | Hne].
    + repeat split; intros; try reflexivity; try discriminate; congruence.
    + repeat split; intros; try reflexivity; try discriminate; congruence.
  - repeat split; intros; try reflexivity; discriminate.
  - repeat split; intros; try reflexivity; discriminate.
  - repeat split; intros; try reflexivity; discriminate.
Qed.

(** C7: whatever the request, [getCourseById] makes exactly one call, the
    fetch by the path identifier with
    [{ include: [db.Student, db.Teacher] }]. *)
Theorem getCourseById_expands_both (req : Request) (s : Store db) :
  exists thrown,
    trace (run db (getCourseById req) s)
    = [Called (FindByPk (params_id req)
                 (Some {| include := Some [Student; Teacher];
                          limit := None; offset := None; order := None |}))
              thrown].
Proof.
  unfold getCourseById; simpl. await_answer.
  - eexists; reflexivity.
  - destruct val; eexists; reflexivity.
Qed.

(** The models handed to [findAll] are those pushed on [include]. *)
Lemma included_findAll_options (req : Request) :
  included (findAll_options req) = include_of req.
Proof.
  unfold included, findAll_options; simpl.
  destruct (include_of req); reflexivity.
Qed.

Lemma includes_In (l : list string) (x : string) :
  Js.includes l x = true <-> In x l.
Proof.
  unfold Js.includes. rewrite existsb_exists. split.
  - intros (y & Hy & E). apply String.eqb_eq in E. subst. exact Hy.
  - intros H. exists x. split; [exact H | apply String.eqb_refl].
Qed.

(** The falsy empty [populate] string has one empty token, which names no
    model: the test in the handler does not change which names occur. *)
Lemma populateList_tokens (req : Request) (x : string) :
  x <> "" ->
  (In x (populateList_of req) <-> In x (populate_tokens (lookup "populate" (query req)))).
Proof.
  intros Hx. unfold populateList_of, populate_tokens.
  destruct (lookup "populate" (query req)) as [[raw | items | fields]|];
    try tauto.
  destruct (String.eqb_spec raw "") as [-> | _]; [|tauto].
  simpl. intuition congruence.
Qed.

Lemma include_of_Student (req : Request) :
  In Student (include_of req) <-> In "students" (populateList_of req).
Proof.
  unfold include_of. rewrite <- includes_In.
  destruct (Js.includes (populateList_of req) "students");
    destruct (Js.includes (populateList_of req) "teachers"); simpl;
    intuition discriminate.
Qed.

Lemma include_of_Teacher (req : Request) :
  In Teacher (include_of req) <-> In "teachers" (populateList_of req).
Proof.
  unfold include_of. rewrite <- includes_In.
  destruct (Js.includes (populateList_of req) "students");
    destruct (Js.includes (populateList_of req) "teachers"); simpl;
    intuition discriminate.
Qed.

(** A [findAll] call that did not throw ends in a 200 response. *)
Lemma getAllCourses_findAll_resolved (req : Request) (s : Store db)
  (options : FindOptions) :
  In (Called (FindAll options) None) (trace (run db (getAllCourses req) s)) ->
  exists r, response (run db (getAllCourses req) s) = Some r /\ status r = 200.
Proof.
  unfold getAllCourses, response; simpl. populate_case; [intros []|].
  await_answer.
  - intros [H | [H | []]]; apply (f_equal findAll_call) in H; simpl in H; discriminate H.
  - await_answer.
    + intros [H | [H | [H | []]]];
        first [ apply (f_equal findAll_call) in H; simpl in H; discriminate H
              | apply (f_equal thrown_of) in H; simpl in H; discriminate H ].
    + intros _. eexists; split; reflexivity.
Qed.

(** A call is made only for a [populate] that is absent or a string. *)
Lemma populate_string_or_absent (req : Request) :
  populate_throws req = None ->
  lookup "populate" (query req) = None
  \/ exists raw, lookup "populate" (query req) = Some (QString raw).
Proof.
  unfold populate_throws.
  destruct (lookup "populate" (query req)) as [[raw | items | fields]|];
    try discriminate; eauto.
Qed.

(** C6: every [findAll] call of [getAllCourses] includes the Student model
    exactly when the trimmed, lowercased comma-separated tokens of
    [populate] contain ['students'], and the Teacher model exactly when
    they contain ['teachers']; with no such token, and with [populate]
    absent, nothing is included; and a call that resolves ends in a 200
    response whatever the other tokens are.  The tokens are what the
    words say: [populate] is then a string, it is its pieces joined by
    commas, no piece has a comma, and each token is the lower-case form
    of a piece without the white space at its ends, white space being
    the whole ECMAScript set. *)
Theorem getAllCourses_populate (req : Request) (s : Store db)
  (options : FindOptions) (thrown : option Error) :
  In (Called (FindAll options) thrown) (trace (run db (getAllCourses req) s)) ->
  (In Student (included options)
   <-> In "students" (populate_tokens (lookup "populate" (query req))))
  /\ (In Teacher (included options)
      <-> In "teachers" (populate_tokens (lookup "populate" (query req))))
  /\ (lookup "populate" (query req) = None -> included options = [])
  /\ (~ In "students" (populate_tokens (lookup "populate" (query req))) ->
      ~ In "teachers" (populate_tokens (lookup "populate" (query req))) ->
      include options = None)
  /\ (thrown = None ->
      exists r, response (run db (getAllCourses req) s) = Some r /\ status r = 200)
  /\ (forall t,
        In t (populate_tokens (lookup "populate" (query req))) <->
        exists raw before piece after core,
          lookup "populate" (query req) = Some (QString raw)
          /\ Js.split_comma raw = (before ++ piece :: after)%list
          /\ raw = String.concat "," (before ++ piece :: after)
          /\ has_comma piece = false
          /\ core = Js.trim piece
          /\ trimmed piece core
          /\ t = Js.toLowerCase core).
Proof.
  intros H. pose proof H as Hin.
  apply getAllCourses_findAll_options in H. subst options.
  rewrite included_findAll_options.
  pose proof (include_of_Student req) as HS.
  pose proof (include_of_Teacher req) as HT.
  rewrite (populateList_tokens req "students") in HS by discriminate.
  rewrite (populateList_tokens req "teachers") in HT by discriminate.
  split; [tauto|]. split; [tauto|]. split; [|split; [|split]].
  - intros Hq. unfold include_of, populateList_of. rewrite Hq. reflexivity.
  - intros HnS HnT. unfold findAll_options; simpl.
    destruct (include_of req) as [|m rest] eqn:E; [reflexivity|].
    exfalso. destruct m.
    + apply HnS, HS. left. reflexivity.
    + apply HnT, HT. left. reflexivity.
  - intros ->. eapply getAllCourses_findAll_resolved. exact Hin.
  - intros t. unfold populate_tokens.
    destruct (lookup "populate" (query req)) as [[raw | items | fields]|].
    + rewrite in_map_iff. split.
      * intros (piece & <- & Hp).
        destruct (in_split _ _ Hp) as (before & after & Hsplit).
        exists raw, before, piece, after, (Js.trim piece).
        split; [reflexivity|]. split; [exact Hsplit|].
        split; [rewrite <- Hsplit; symmetry; apply split_comma_join|].
        split; [exact (split_comma_pieces_no_comma raw piece Hp)|].
        split; [reflexivity|].
        split; [apply trim_trimmed | reflexivity].
      * intros (raw' & before & piece & after & core
                & [= <-] & Hsplit & _ & _ & -> & _ & ->).
        exists piece. split; [reflexivity|].
        rewrite Hsplit. apply in_elt.
    + split; [intros [] | intros (? & ? & ? & ? & ? & E & _); discriminate E].
    + split; [intros [] | intros (? & ? & ? & ? & ? & E & _); discriminate E].
    + split; [intros [] | intros (? & ? & ? & ? & ? & E & _); discriminate E].
Qed.

(** C3 (as amended): in every [findAll] call of [getAllCourses] the
    [limit] option is the effective limit and the [offset] option is
    [(page - 1) * limit] of the effective page and limit, in double
    arithmetic; a [limit] or [page] parameter that parses to a negative
    integer is the effective value unchanged, so a negative limit [l] and
    a page [p] give limit [l] and offset [(p - 1) * l]; a parameter that
    parses to zero is replaced by its default, 10 for the limit and 1 for
    the page. *)
Theorem getAllCourses_negative_passed_through (req : Request) (s : Store db)
  (options : FindOptions) (thrown : option Error) :
  In (Called (FindAll options) thrown) (trace (run db (getAllCourses req) s)) ->
  limit options = Some (limit_of req)
  /\ offset options
     = Some (Js.mul (Js.sub (page_of req) (Js.Int 1)) (limit_of req))
  /\ (forall l, parseInt_query req "limit" = Js.Int l -> l < 0 ->
        limit_of req = Js.Int l)
  /\ (forall p, parseInt_query req "page" = Js.Int p -> p < 0 ->
        page_of req = Js.Int p)
  /\ (parseInt_query req "limit" = Js.Int 0 -> limit_of req = Js.Int 10)
  /\ (parseInt_query req "page" = Js.Int 0 -> page_of req = Js.Int 1)
  /\ (forall l p,
        limit_of req = Js.Int l -> page_of req = Js.Int p ->
        safe (p - 1) -> safe ((p - 1) * l) ->
        limit options = Some (Js.Int l)
        /\ offset options = Some (Js.Int ((p - 1) * l))).
Proof.
  intros H. apply getAllCourses_findAll_options in H. subst options.
  unfold findAll_options; simpl.
  split; [reflexivity|]. split; [reflexivity|].
  split; [|split; [|split; [|split]]].
  - intros l E Hl. unfold limit_of. rewrite E. destruct l; try lia. reflexivity.
  - intros p E Hp. unfold page_of. rewrite E. destruct p; try lia. reflexivity.
  - intros E. unfold limit_of. rewrite E. reflexivity.
  - intros E. unfold page_of. rewrite E. reflexivity.
  - intros l p El Ep H1 H2. rewrite El, Ep. simpl.
    rewrite (round_safe _ H1). simpl. rewrite (round_safe _ H2).
    split; reflexivity.
Qed.

(** C2: for every successful [getAllCourses] request whose effective limit
    [l] is positive, [meta.totalPages] is the ceiling of
    [totalItems / l], that is the integer [t] with
    [(t - 1) * l < totalItems <= t * l], for a count below 2^53, where
    the double quotient has the ceiling of the exact one; and, with a
    collaborator that returns at most [limit] rows, [data] has at most
    [l] elements; for a limit that overflowed to [Infinity] the ceiling
    is 0. *)
Theorem getAllCourses_totalPages_and_page_size (req : Request) (s : Store db)
  (r : Response) :
  (forall options st courses n,
     fst (exec db (FindAll options) st) = inr courses ->
     limit options = Some (Js.Int n) -> 0 <= n ->
     Z.of_nat (List.length courses) <= n) ->
  response (run db (getAllCourses req) s) = Some r ->
  status r = 200 ->
  exists totalItems totalPages data,
    sent r = list_envelope (Js.Int totalItems) (page_of req) (Js.Int totalPages) data
    /\ (forall l, limit_of req = Js.Int l -> 0 < l ->
          (safe totalItems -> (totalPages - 1) * l < totalItems <= totalPages * l)
          /\ Z.of_nat (List.length data) <= l)
    /\ (limit_of req = Js.PosInfinity -> totalPages = 0).
Proof.
  intros Hlimit Hr Hok.
  destruct (getAllCourses_success req s r Hr Hok) as (total & courses & _ & Hall & Hsent).
  destruct (or_default (parseInt_query req "limit") 10 ltac:(lia))
    as (Hnan & Hzero & _ & _).
  fold (limit_of req) in Hnan, Hzero.
  destruct (limit_of req) as [| | | l] eqn:El; [contradiction | | |].
  - exists total, 0, (map toJSON courses).
    split; [exact Hsent|]. split; [intros l [=] | reflexivity].
  - exists total, 0, (map toJSON courses).
    split; [exact Hsent|]. split; [intros l [=] | discriminate].
  - simpl in Hsent.
    destruct (Z.eqb_spec l 0) as [-> | _]; [contradiction|].
    exists total, (Qceiling (inject_Z total / inject_Z l)), (map toJSON courses).
    split; [exact Hsent|]. split; [|discriminate].
    intros l' [= <-] Hl. split.
    + intros _. apply Qceiling_quotient. exact Hl.
    + rewrite length_map. eapply Hlimit; [exact Hall | | lia].
      unfold findAll_options; simpl. rewrite El. reflexivity.
Qed.

(** C9: with a collaborator whose [count()] answers the number of rows of
    the Course table, [meta.totalItems] of every successful
    [getAllCourses] response is that number, and so two successful
    requests against the same store carry the same [totalItems] whatever
    their page, limit, sort and populate parameters. *)
Theorem getAllCourses_totalItems (table : Store db -> list CourseRow)
  (req1 req2 : Request) (s : Store db) (r1 r2 : Response) :
  (forall st n, fst (exec db Count st) = inr n ->
                n = Z.of_nat (List.length (table st))) ->
  response (run db (getAllCourses req1) s) = Some r1 -> status r1 = 200 ->
  response (run db (getAllCourses req2) s) = Some r2 -> status r2 = 200 ->
  totalItems_of r1 = Some (JNum (Js.Int (Z.of_nat (List.length (table s)))))
  /\ totalItems_of r2 = totalItems_of r1.
Proof.
  intros Hcount H1 Hok1 H2 Hok2.
  destruct (getAllCourses_success req1 s r1 H1 Hok1) as (t1 & c1 & Ht1 & _ & E1).
  destruct (getAllCourses_success req2 s r2 H2 Hok2) as (t2 & c2 & Ht2 & _ & E2).
  apply Hcount in Ht1, Ht2. subst t1 t2.
  unfold totalItems_of. rewrite E1, E2. split; reflexivity.
Qed.

End Collaborator.

(** C10: the [limit] that divides in [Math.ceil(total / limit)] is never
    zero and never NaN, for every request: it is 10 when the parameter is
    missing or parses to NaN or to zero, and the parsed value otherwise;
    so [totalPages] is never an infinity or NaN, and every successful
    response carries an integer [totalPages]. *)
Theorem limit_divisor_never_zero (req : Request) :
  limit_of req <> Js.Int 0
  /\ limit_of req <> Js.NaN
  /\ match parseInt_query req "limit" with
     | Js.NaN | Js.Int 0 => limit_of req = Js.Int 10
     | parsed => limit_of req = parsed
     end
  /\ (lookup "limit" (query req) = None -> limit_of req = Js.Int 10)
  /\ (forall total, exists pages,
        Js.ceil_div (Js.Int total) (limit_of req) = Js.Int pages)
  /\ (forall db s r,
        response (run db (getAllCourses req) s) = Some r -> status r = 200 ->
        exists total pages data,
          sent r = list_envelope (Js.Int total) (page_of req) (Js.Int pages) data).
Proof.
  destruct (or_default (parseInt_query req "limit") 10 ltac:(lia))
    as (Hnan & Hzero & Ht & Hf).
  fold (limit_of req) in Hnan, Hzero, Ht, Hf.
  assert (Hdiv : forall total, exists pages,
             Js.ceil_div (Js.Int total) (limit_of req) = Js.Int pages).
  { intros total. destruct (limit_of req) as [| | | l]; simpl;
      [contradiction | eexists; reflexivity | eexists; reflexivity |].
    destruct (Z.eqb_spec l 0) as [-> | _]; [contradiction|]. eexists; reflexivity. }
  split; [exact Hzero|]. split; [exact Hnan|]. split; [|split; [|split]].
  - destruct (parseInt_query req "limit") as [| | | [|p|p]]; simpl in *; auto.
  - intros Hq. apply Hf. unfold parseInt_query. rewrite Hq. reflexivity.
  - exact Hdiv.
  - intros db s r Hr Hok.
    destruct (getAllCourses_success db req s r Hr Hok) as (total & courses & _ & _ & E).
    destruct (Hdiv total) as (pages & Ep). rewrite Ep in E.
    exists total, pages, (map toJSON courses). exact E.
Qed.

(** ** The in-memory collaborator obeys the laws assumed above *)

(** [findByPk] only reads. *)
Lemma MemDb_findByPk_reads (pk : string) (options : option FindOptions)
  (st : Store MemDb.db) :
  snd (exec MemDb.db (FindByPk pk options) st) = st.
Proof.
  simpl. unfold MemDb.exec. destruct (MemDb.connected st); reflexivity.
Qed.

(** [count()] answers the number of rows of the Course table. *)
Lemma MemDb_count (st : Store MemDb.db) (n : Z) :
  fst (exec MemDb.db Count st) = inr n ->
  n = Z.of_nat (List.length (MemDb.courses st)).
Proof.
  simpl. unfold MemDb.exec. destruct (MemDb.connected st); simpl; congruence.
Qed.

(** [findAll] returns at most [limit] rows. *)
Lemma MemDb_findAll_limit (options : FindOptions) (st : Store MemDb.db)
  (found : list Instance) (n : Z) :
  fst (exec MemDb.db (FindAll options) st) = inr found ->
  limit options = Some (Js.Int n) ->
  0 <= n ->
  Z.of_nat (List.length found) <= n.
Proof.
  simpl. unfold MemDb.exec, MemDb.findAll.
  destruct (MemDb.connected st); simpl; [|discriminate].
  destruct (MemDb.ordered (order options) (MemDb.courses st)) as [e | rows];
    [discriminate|].
  destruct (MemDb.row_count "OFFSET" 0%nat (offset options)) as [e | skip];
    [discriminate|].
  intros H El Hn. rewrite El in H. simpl in H.
  destruct (Z.ltb_spec n 0) as [Hneg | _]; [lia|].
  injection H as <-.
  rewrite length_map, length_firstn. lia.
Qed.

(** An identifier that no row carries resolves to no record. *)
Lemma MemDb_no_match (pk : string) (st : Store MemDb.db) :
  MemDb.connected st = true ->
  (forall r, In r (MemDb.courses st) -> MemDb.pk_string (id r) <> pk) ->
  forall options, fst (exec MemDb.db (FindByPk pk options) st) = inr None.
Proof.
  intros Hc Hnone options. simpl. unfold MemDb.exec, MemDb.findByPk.
  rewrite Hc. simpl.
  destruct (find (MemDb.has_pk pk) (MemDb.courses st)) as [r|] eqn:E;
    [|reflexivity].
  apply find_some in E. destruct E as [Hin Hpk].
  unfold MemDb.has_pk in Hpk. apply String.eqb_eq in Hpk.
  exfalso. exact (Hnone r Hin Hpk).
Qed.

(** ** Concrete runs *)

Example parseInt_25 : Js.parseInt (Some "25") = Js.Int 25.
Proof. reflexivity. Qed.

Example parseInt_signed_prefix : Js.parseInt (Some "  -7px") = Js.Int (-7).
Proof. reflexivity. Qed.

Example parseInt_hex : Js.parseInt (Some "0x1F") = Js.Int 31.
Proof. reflexivity. Qed.

Example parseInt_undefined : Js.parseInt None = Js.NaN.
Proof. reflexivity. Qed.

Example parseInt_empty : Js.parseInt (Some "") = Js.NaN.
Proof. reflexivity. Qed.

Example split_comma_pieces : Js.split_comma "a,,b," = ["a"; ""; "b"; ""].
Proof. reflexivity. Qed.

Example trim_both_ends : Js.trim "  Students " = "Students".
Proof. reflexivity. Qed.

Example toLowerCase_mixed : Js.toLowerCase "TeaCHers" = "teachers".
Proof. reflexivity. Qed.

Example ceil_div_25_10 : Js.ceil_div (Js.Int 25) (Js.Int 10) = Js.Int 3.
Proof. reflexivity. Qed.

Example ceil_div_negative_limit :
  Js.ceil_div (Js.Int 5) (Js.Int (-2)) = Js.Int (-2).
Proof. reflexivity. Qed.

(** The second page of two, newest first, with the students expanded. *)
Example getAllCourses_second_page :
  let req := get_request [("limit", "2"); ("page", "2"); ("sort", "desc");
                          ("populate", " Students ,bogus")] "" in
  response (run MemDb.db (getAllCourses req) MemDb.sample)
  = Some (res_json
            (list_envelope (Js.Int 3) (Js.Int 2) (Js.Int 2)
               [ JObj [ ("id", JNum (Js.Int 1)); ("title", JStr "Algebra");
                        ("description", JStr "Intro");
                        ("TeacherId", JNum (Js.Int 3));
                        ("createdAt", JNum (Js.Int 10));
                        ("updatedAt", JNum (Js.Int 10));
                        ("Students", JArr [ JObj [("name", JStr "Ann")];
                                            JObj [("name", JStr "Bob")] ]) ] ])).
Proof. reflexivity. Qed.

(** A negative limit reaches the database, which refuses it. *)
Example getAllCourses_negative_limit :
  response (run MemDb.db (getAllCourses (get_request [("limit", "-2")] ""))
              MemDb.sample)
  = Some (res_status_json 500
            (JObj [("error", JStr "LIMIT must not be negative")])).
Proof. reflexivity. Qed.

(** Create, then delete, then fetch: the scenario of the spec. *)
Example create_then_delete_then_get :
  let created :=
    run MemDb.db
      (createCourse (mkRequest (JObj [ ("title", JStr "Algebra");
                                       ("description", JStr "Intro");
                                       ("TeacherId", JNum (Js.Int 3)) ]) [] ""))
      MemDb.sample in
  let deleted := run MemDb.db (deleteCourse (get_request [] "4")) (final created) in
  let fetched := run MemDb.db (getCourseById (get_request [] "4")) (final deleted) in
  option_map status (response created) = Some 201
  /\ response deleted = Some (res_json (JObj [("message", JStr "Deleted")]))
  /\ response fetched = Some not_found.
Proof. repeat split. Qed.

(** ** The claims at concrete requests *)

(** The spec's capitalised message is not what the handlers send: no course
    has identifier 7 in the sample store, and the three bodies differ from
    [{ message: 'Not Found' }]. *)
Lemma not_found_body_counterexample :
  MemDb.findByPk "7" None MemDb.sample = None
  /\ response (run MemDb.db (getCourseById (get_request [] "7")) MemDb.sample)
     <> Some (res_status_json 404 (JObj [("message", JStr "Not Found")]))
  /\ response (run MemDb.db (updateCourse (get_request [] "7")) MemDb.sample)
     <> Some (res_status_json 404 (JObj [("message", JStr "Not Found")]))
  /\ response (run MemDb.db (deleteCourse (get_request [] "7")) MemDb.sample)
     <> Some (res_status_json 404 (JObj [("message", JStr "Not Found")])).
Proof.
  repeat split; try reflexivity; vm_compute; intros H; discriminate H.
Qed.

Lemma not_found_response_witness :
  (forall options,
     fst (exec MemDb.db (FindByPk "7" options) MemDb.sample) = inr None)
  /\ response (run MemDb.db (handler OpUpdateCourse (get_request [] "7")) MemDb.sample)
     = Some (res_status_json 404 (JObj [("message", JStr "Not found")])).
Proof.
  split.
  - intros options. reflexivity.
  - apply (not_found_response MemDb.db OpUpdateCourse (get_request [] "7") MemDb.sample).
    + right. left. reflexivity.
    + intros options. reflexivity.
Defined.

Lemma not_found_no_mutation_witness :
  response (run MemDb.db (handler OpDeleteCourse (get_request [] "7")) MemDb.sample)
  = Some not_found
  /\ trace (run MemDb.db (handler OpDeleteCourse (get_request [] "7")) MemDb.sample)
     = [Called (FindByPk "7" None) None]
  /\ existsb is_mutation
       (trace (run MemDb.db (handler OpDeleteCourse (get_request [] "7")) MemDb.sample))
     = false
  /\ final (run MemDb.db (handler OpDeleteCourse (get_request [] "7")) MemDb.sample)
     = MemDb.sample.
Proof.
  apply (not_found_no_mutation MemDb.db OpDeleteCourse (get_request [] "7") MemDb.sample).
  - right. reflexivity.
  - exact MemDb_findByPk_reads.
  - reflexivity.
Defined.

(** The database is unreachable: the delete fails at its fetch. *)
Lemma collaborator_error_gives_500_witness :
  response (run MemDb.db (handler OpDeleteCourse (get_request [] "2")) MemDb.offline)
  = Some (res_status_json 500 (JObj [("error", JStr "connect ECONNREFUSED")])).
Proof.
  apply (collaborator_error_gives_500 MemDb.db OpDeleteCourse (get_request [] "2")
           MemDb.offline _ (FindByPk "2" None) MemDb.connection_error).
  simpl. left. reflexivity.
Defined.

Lemma getAllCourses_sort_direction_witness :
  In (Called (FindAll (findAll_options newest_first_request)) None)
     (trace (run MemDb.db (getAllCourses newest_first_request) MemDb.sample))
  /\ exists direction,
       order (findAll_options newest_first_request) = Some [("createdAt", direction)]
       /\ (direction = "DESC"
           <-> lookup "sort" (query newest_first_request) = Some (QString "desc"))
       /\ (direction = "ASC"
           <-> lookup "sort" (query newest_first_request) <> Some (QString "desc")).
Proof.
  assert (Hcall :
    In (Called (FindAll (findAll_options newest_first_request)) None)
       (trace (run MemDb.db (getAllCourses newest_first_request) MemDb.sample))).
  { right. left. reflexivity. }
  split; [exact Hcall|].
  exact (getAllCourses_sort_direction MemDb.db _ _ _ _ Hcall).
Defined.

Lemma getAllCourses_populate_witness :
  In (Called (FindAll {| include := Some [Student; Teacher];
                         limit := Some (Js.Int 10);
                         offset := Some (Js.Int 0);
                         order := Some [("createdAt", "ASC")] |}) None)
     (trace (run MemDb.db
               (getAllCourses (get_request [("populate", spaced_populate)] ""))
               MemDb.sample))
  /\ populate_tokens (Some (QString spaced_populate))
     = ["students"; "bogus"; "teachers"]
  /\ exists r,
       response (run MemDb.db
                   (getAllCourses (get_request [("populate", spaced_populate)] ""))
                   MemDb.sample) = Some r
       /\ status r = 200.
Proof.
  assert (Hcall :
    In (Called (FindAll {| include := Some [Student; Teacher];
                           limit := Some (Js.Int 10);
                           offset := Some (Js.Int 0);
                           order := Some [("createdAt", "ASC")] |}) None)
       (trace (run MemDb.db
                 (getAllCourses (get_request [("populate", spaced_populate)] ""))
                 MemDb.sample))).
  { right. left. reflexivity. }
  split; [exact Hcall|]. split; [reflexivity|].
  destruct (getAllCourses_populate MemDb.db _ _ _ _ Hcall)
    as (_ & _ & _ & _ & Hok & _).
  exact (Hok eq_refl).
Defined.

(** A zero limit is not handed over: the call carries the default 10; and
    a zero page gives the offset of page 1, not [(0 - 1) * limit]. *)
Lemma zero_limit_counterexample :
  parseInt_query (get_request [("limit", "0"); ("page", "0")] "") "limit"
  = Js.Int 0
  /\ parseInt_query (get_request [("limit", "0"); ("page", "0")] "") "page"
     = Js.Int 0
  /\ trace (run MemDb.db
              (getAllCourses (get_request [("limit", "0"); ("page", "0")] ""))
              MemDb.sample)
     = [ Called Count None;
         Called (FindAll {| include := None; limit := Some (Js.Int 10);
                            offset := Some (Js.Int 0);
                            order := Some [("createdAt", "ASC")] |}) None ]
  /\ Some (Js.Int 10) <> Some (Js.Int 0)
  /\ Some (Js.Int 0) <> Some (Js.Int ((0 - 1) * 10)).
Proof.
  repeat split; try reflexivity; intros H; discriminate H.
Qed.

(** Limit -2 and page -3 reach the database as limit -2 and offset
    (-3 - 1) * -2 = 8; the database refuses the limit. *)
Lemma getAllCourses_negative_passed_through_witness :
  In (Called (FindAll negative_page_options)
             (Some (MemDb.database_error "LIMIT must not be negative")))
     (trace (run MemDb.db (getAllCourses negative_page_request) MemDb.sample))
  /\ parseInt_query negative_page_request "limit" = Js.Int (-2)
  /\ parseInt_query negative_page_request "page" = Js.Int (-3)
  /\ limit negative_page_options = Some (Js.Int (-2))
  /\ offset negative_page_options = Some (Js.Int ((-3 - 1) * -2)).
Proof.
  assert (Hcall :
    In (Called (FindAll negative_page_options)
               (Some (MemDb.database_error "LIMIT must not be negative")))
       (trace (run MemDb.db (getAllCourses negative_page_request) MemDb.sample))).
  { right. left. reflexivity. }
  destruct (getAllCourses_negative_passed_through MemDb.db _ _ _ _ Hcall)
    as (_ & _ & Hlimit & Hpage & _ & _ & Hexact).
  split; [exact Hcall|]. split; [reflexivity|]. split; [reflexivity|].
  apply (Hexact (-2) (-3)).
  - apply Hlimit; [reflexivity | lia].
  - apply Hpage; [reflexivity | lia].
  - unfold safe. simpl. lia.
  - unfold safe. simpl. lia.
Defined.

Lemma getAllCourses_totalPages_and_page_size_witness :
  exists r,
    response (run MemDb.db
                (getAllCourses (get_request [("limit", "2"); ("page", "2")] ""))
                MemDb.sample) = Some r
    /\ exists totalItems totalPages data,
         sent r = list_envelope (Js.Int totalItems) (Js.Int 2) (Js.Int totalPages) data
         /\ totalItems = 3
         /\ (totalPages - 1) * 2 < totalItems <= totalPages * 2
         /\ Z.of_nat (List.length data) <= 2.
Proof.
  eexists. split; [reflexivity|].
  destruct (getAllCourses_totalPages_and_page_size MemDb.db
              (get_request [("limit", "2"); ("page", "2")] "") MemDb.sample _
              MemDb_findAll_limit eq_refl eq_refl)
    as (totalItems & totalPages & data & Hsent & Hfinite & _).
  exists totalItems, totalPages, data.
  assert (Htotal : totalItems = 3).
  { unfold list_envelope in Hsent. simpl in Hsent. congruence. }
  split; [exact Hsent|]. split; [exact Htotal|].
  destruct (Hfinite 2 eq_refl ltac:(lia)) as [Hceil Hlength].
  split; [|exact Hlength].
  apply Hceil. rewrite Htotal. unfold safe. simpl. lia.
Defined.

Lemma getAllCourses_totalItems_witness :
  exists r1 r2,
    response (run MemDb.db
                (getAllCourses (get_request [("limit", "2"); ("page", "2")] ""))
                MemDb.sample) = Some r1
    /\ response (run MemDb.db
                   (getAllCourses (get_request [("sort", "desc"); ("populate", "teachers")] ""))
                   MemDb.sample) = Some r2
    /\ totalItems_of r1 = Some (JNum (Js.Int 3))
    /\ totalItems_of r2 = totalItems_of r1.
Proof.
  eexists. eexists. split; [reflexivity|]. split; [reflexivity|].
  apply (getAllCourses_totalItems MemDb.db MemDb.courses
           (get_request [("limit", "2"); ("page", "2")] "")
           (get_request [("sort", "desc"); ("populate", "teachers")] "")
           MemDb.sample _ _ MemDb_count); reflexivity.
Defined.

(** * Further properties of the handlers *)

Lemma cons_eq_inv {A : Type} (a b : A) (l l' : list A) :
  a :: l = b :: l' -> a = b /\ l = l'.
Proof. intros H. injection H. auto. Qed.

(** The shapes a trace can have: at most two calls, then at most one
    logged error. *)
Ltac trace_cases H :=
  simpl in H;
  repeat match type of H with
         | _ \/ _ => destruct H as [H | H]
         | False => destruct H
         end.

(** Find where an event sits in a trace written out as a list. *)
Ltac locate_event H :=
  match type of H with
  | [] = (?pre ++ _ :: _)%list => destruct pre; discriminate H
  | _ :: _ = (?pre ++ _ :: _)%list =>
      destruct pre; simpl in H; apply cons_eq_inv in H; destruct H as [? H];
      [ subst | locate_event H ]
  end.

Section Contracts.

Variable db : DataAccess.


(** X2: a handler answers 500 exactly when one of its calls on the models
    threw. *)
Theorem internal_error_iff_thrown (op : Operation) (req : Request) (s : Store db) :
  option_map status (response (run db (handler op req) s)) = Some 500
  <-> exists ev e, In ev (trace (run db (handler op req) s))
                   /\ is_call ev = true /\ thrown_of ev = Some e.
Proof.
  destruct op; unfold handler, createCourse, getAllCourses, getCourseById,
    updateCourse, deleteCourse, response; simpl;
    try populate_case;
    try await_answer;
    try (destruct val; simpl);
    try await_answer;
    (split;
     [ intros H;
       first [ discriminate H
             | solve [ eexists; eexists; split;
                       [ left; reflexivity | split; reflexivity ] ]
             | solve [ eexists; eexists; split;
                       [ right; left; reflexivity | split; reflexivity ] ] ]
     | intros (ev & e & Hin & Hcall & Hthrown);
       first [ reflexivity
             | trace_cases Hin; subst ev; simpl in *;
               first [ discriminate Hcall | discriminate Hthrown ] ] ]).
Qed.

(** X3: once a call on the models has thrown, the handler makes no further
    call: whatever follows the throwing call in the trace is not a call. *)
Theorem no_call_after_failure (op : Operation) (req : Request) (s : Store db)
  (pre post : list Event) (ev : Event) :
  trace (run db (handler op req) s) = (pre ++ ev :: post)%list ->
  is_call ev = true ->
  thrown_of ev <> None ->
  forallb (fun x => negb (is_call x)) post = true.
Proof.
  destruct op; unfold handler, createCourse, getAllCourses, getCourseById,
    updateCourse, deleteCourse; simpl;
    try populate_case;
    try await_answer;
    try (destruct val as [course|]; simpl);
    try await_answer;
    intros H Hcall Hthrown;
    locate_event H;
    simpl in *;
    first [ reflexivity
          | exfalso; apply Hthrown; reflexivity
          | discriminate Hcall ].
Qed.

(** X4: [getAllCourses] and [getCourseById] make no create, update or
    destroy call; with a collaborator whose reading calls leave the store
    as it is, the store after the request is the store before it. *)
Theorem list_and_fetch_only_read (op : Operation) (req : Request) (s : Store db) :
  op = OpGetAllCourses \/ op = OpGetCourseById ->
  existsb is_mutation (trace (run db (handler op req) s)) = false
  /\ ((forall (X : Type) (c : Call X) (st : Store db),
         is_read c = true -> snd (exec db c st) = st) ->
      final (run db (handler op req) s) = s).
Proof.
  intros [-> | ->]; unfold handler, getAllCourses, getCourseById; simpl.
  - destruct (populate_throws req) as [type_error|]; simpl;
      [split; [reflexivity | intros _; reflexivity]|].
    pose proof (fun H : forall (X : Type) (c : Call X) (st : Store db),
                    is_read c = true -> snd (exec db c st) = st =>
                  H _ Count s eq_refl) as H1.
    destruct (exec db Count s) as [[e | total] s1]; simpl in *.
    + split; [reflexivity | exact H1].
    + pose proof (fun H : forall (X : Type) (c : Call X) (st : Store db),
                      is_read c = true -> snd (exec db c st) = st =>
                    H _ (FindAll (findAll_options req)) s1 eq_refl) as H2.
      destruct (exec db (FindAll (findAll_options req)) s1) as [[e | courses] s2];
        simpl in *; (split; [reflexivity|]);
        intros H; rewrite (H2 H); exact (H1 H).
  - pose proof (fun H : forall (X : Type) (c : Call X) (st : Store db),
                    is_read c = true -> snd (exec db c st) = st =>
                  H _ (FindByPk (params_id req) (Some with_both_associations)) s eq_refl)
      as H1.
    destruct (exec db (FindByPk (params_id req) (Some with_both_associations)) s)
      as [[e | [course|]] s1]; simpl in *; (split; [reflexivity | exact H1]).
Qed.

(** X5: a handler answers 404 only when its fetch by the path identifier
    resolved to no record, and that fetch is then the only call it made. *)
Theorem not_found_only_when_absent (op : Operation) (req : Request) (s : Store db) :
  option_map status (response (run db (handler op req) s)) = Some 404 ->
  exists options,
    fst (exec db (FindByPk (params_id req) options) s) = inr None
    /\ trace (run db (handler op req) s)
       = [Called (FindByPk (params_id req) options) None].
Proof.
  destruct op; unfold handler, createCourse, getAllCourses, getCourseById,
    updateCourse, deleteCourse, response; simpl;
    try populate_case;
    try await_answer;
    try (destruct val as [course|]; simpl);
    try await_answer;
    intros H; try discriminate H;
    eexists; rewrite Answer; split; reflexivity.
Qed.

(** X6: an error is written to the console exactly by [getAllCourses], and
    exactly when one of its two calls threw that error; the other four
    handlers never log. *)
Theorem error_logged_iff (op : Operation) (req : Request) (s : Store db)
  (e : Error) :
  In (Logged e) (trace (run db (handler op req) s))
  <-> op = OpGetAllCourses
      /\ exists ev, In ev (trace (run db (handler op req) s))
                    /\ is_call ev = true /\ thrown_of ev = Some e.
Proof.
  destruct op; unfold handler, createCourse, getAllCourses, getCourseById,
    updateCourse, deleteCourse; simpl;
    try populate_case;
    try await_answer;
    try (destruct val as [course|]; simpl);
    try await_answer;
    (split;
     [ intros H; trace_cases H;
       first [ discriminate H
             | injection H as <-; split; [reflexivity|];
               first [ solve [ eexists; split;
                               [ left; reflexivity | split; reflexivity ] ]
                     | solve [ eexists; split;
                               [ right; left; reflexivity | split; reflexivity ] ] ] ]
     | intros (Hop & ev & Hin & Hcall & Hthrown); try discriminate Hop;
       trace_cases Hin; subst ev; simpl in *;
       first [ discriminate Hcall | discriminate Hthrown
             | injection Hthrown as <-; auto ] ]).
Qed.

(** X7: a [create] call is made only by [createCourse], with the request
    body as it came; the response is then 201 with the created record when
    the call resolves, and the store is the one [create] left. *)
Theorem create_only_by_createCourse (op : Operation) (req : Request)
  (s : Store db) (ev : Event) (values : json) :
  In ev (trace (run db (handler op req) s)) ->
  create_call ev = Some values ->
  op = OpCreateCourse
  /\ values = body req
  /\ final (run db (handler op req) s) = snd (exec db (Create (body req)) s)
  /\ (thrown_of ev = None ->
      exists created,
        fst (exec db (Create (body req)) s) = inr created
        /\ response (run db (handler op req) s)
           = Some (res_status_json 201 (toJSON created))).
Proof.
  destruct op; unfold handler, createCourse, getAllCourses, getCourseById,
    updateCourse, deleteCourse, response; simpl;
    try populate_case;
    try await_answer;
    try (destruct val as [course|]; simpl);
    try await_answer;
    intros H Hc; trace_cases H; subst ev; simpl in Hc; try discriminate Hc;
    injection Hc as <-; (split; [reflexivity|]); (split; [reflexivity|]);
    (split; [reflexivity|]); simpl; intros Ht; try discriminate Ht;
    eexists; split; reflexivity.
Qed.

(** X8: an [update] call is made only by [updateCourse], on the instance
    its fetch resolved to and with the request body as it came; when the
    call resolves the response is 200 with the instance as updated. *)
Theorem update_only_on_fetched (op : Operation) (req : Request)
  (s : Store db) (ev : Event) (course : Instance) (values : json) :
  In ev (trace (run db (handler op req) s)) ->
  update_call ev = Some (course, values) ->
  op = OpUpdateCourse
  /\ fst (exec db (FindByPk (params_id req) None) s) = inr (Some course)
  /\ values = body req
  /\ (thrown_of ev = None ->
      exists updated,
        fst (exec db (Update course (body req))
               (snd (exec db (FindByPk (params_id req) None) s))) = inr updated
        /\ response (run db (handler op req) s)
           = Some (res_json (toJSON updated))).
Proof.
  destruct op; unfold handler, createCourse, getAllCourses, getCourseById,
    updateCourse, deleteCourse, response; simpl;
    try populate_case;
    try await_answer;
    try (destruct val as [fetched|]; simpl);
    try await_answer;
    intros H Hc; trace_cases H; subst ev; simpl in Hc; try discriminate Hc;
    injection Hc as <- <-; (split; [reflexivity|]); (split; [reflexivity|]);
    (split; [reflexivity|]); simpl; intros Ht; try discriminate Ht;
    rewrite Answer0; eexists; split; reflexivity.
Qed.

(** X9: a [destroy] call is made only by [deleteCourse], on the instance
    its fetch resolved to; when the call resolves the response is 200 with
    [{ message: 'Deleted' }]. *)
Theorem destroy_only_on_fetched (op : Operation) (req : Request)
  (s : Store db) (ev : Event) (course : Instance) :
  In ev (trace (run db (handler op req) s)) ->
  destroy_call ev = Some course ->
  op = OpDeleteCourse
  /\ fst (exec db (FindByPk (params_id req) None) s) = inr (Some course)
  /\ (thrown_of ev = None ->
      response (run db (handler op req) s)
      = Some (res_json (JObj [("message", JStr "Deleted")]))).
Proof.
  destruct op; unfold handler, createCourse, getAllCourses, getCourseById,
    updateCourse, deleteCourse, response; simpl;
    try populate_case;
    try await_answer;
    try (destruct val as [fetched|]; simpl);
    try await_answer;
    intros H Hc; trace_cases H; subst ev; simpl in Hc; try discriminate Hc;
    injection Hc as <-; (split; [reflexivity|]); (split; [reflexivity|]);
    simpl; intros Ht; try discriminate Ht; reflexivity.
Qed.

End Contracts.

(** ** The [populate] parameter *)

Ltac by_ascii c := destruct c as [[] [] [] [] [] [] [] []]; reflexivity.

Lemma lower_char_idem (c : ascii) :
  Js.lower_char (Js.lower_char c) = Js.lower_char c.
Proof. by_ascii c. Qed.

Lemma lower_char_comma (c : ascii) :
  Ascii.eqb (Js.lower_char c) ","%char = Ascii.eqb c ","%char.
Proof. by_ascii c. Qed.

Lemma lower_char_not_upper (c : ascii) : is_upper (Js.lower_char c) = false.
Proof. by_ascii c. Qed.

Lemma lower_char_white_1 (c : ascii) :
  Js.white_space_1 (Js.lower_char c) = Js.white_space_1 c.
Proof. by_ascii c. Qed.

(** Lower-casing changes a letter A to Z into the letter 32 codes up, and
    nothing else. *)
Lemma lower_char_cases (c : ascii) :
  Js.lower_char c = c
  \/ (65 <= Js.code c <= 90 /\ Js.code (Js.lower_char c) = Js.code c + 32).
Proof.
  destruct c as [[] [] [] [] [] [] [] []];
    first [ left; reflexivity | right; vm_compute; intuition discriminate ].
Qed.

Lemma lower_char_high_eqb (c : ascii) (k : Z) :
  128 <= k -> (Js.code (Js.lower_char c) =? k) = (Js.code c =? k).
Proof.
  intros Hk. destruct (lower_char_cases c) as [-> | [Hc E]]; [reflexivity|].
  rewrite E. destruct (Z.eqb_spec (Js.code c + 32) k), (Z.eqb_spec (Js.code c) k);
    first [ reflexivity | lia ].
Qed.

Lemma lower_char_high_leb (c : ascii) (k : Z) :
  128 <= k -> (k <=? Js.code (Js.lower_char c)) = (k <=? Js.code c).
Proof.
  intros Hk. destruct (lower_char_cases c) as [-> | [Hc E]]; [reflexivity|].
  rewrite E. destruct (Z.leb_spec k (Js.code c + 32)), (Z.leb_spec k (Js.code c));
    first [ reflexivity | lia ].
Qed.

Lemma lower_char_leb_high (c : ascii) (k : Z) :
  128 <= k -> (Js.code (Js.lower_char c) <=? k) = (Js.code c <=? k).
Proof.
  intros Hk. destruct (lower_char_cases c) as [-> | [Hc E]]; [reflexivity|].
  rewrite E. destruct (Z.leb_spec (Js.code c + 32) k), (Z.leb_spec (Js.code c) k);
    first [ reflexivity | lia ].
Qed.

Lemma lower_char_white_2 (c d : ascii) :
  Js.white_space_2 (Js.lower_char c) (Js.lower_char d) = Js.white_space_2 c d.
Proof.
  unfold Js.white_space_2. rewrite !lower_char_high_eqb by lia. reflexivity.
Qed.

Lemma lower_char_white_3 (c d e : ascii) :
  Js.white_space_3 (Js.lower_char c) (Js.lower_char d) (Js.lower_char e)
  = Js.white_space_3 c d e.
Proof.
  unfold Js.white_space_3.
  rewrite !lower_char_high_eqb, !lower_char_high_leb, !lower_char_leb_high by lia.
  reflexivity.
Qed.

Lemma toLowerCase_idem (s : string) :
  Js.toLowerCase (Js.toLowerCase s) = Js.toLowerCase s.
Proof.
  induction s as [|c rest IH]; simpl; [reflexivity|].
  rewrite lower_char_idem, IH. reflexivity.
Qed.

Lemma length_toLowerCase (s : string) :
  String.length (Js.toLowerCase s) = String.length s.
Proof. induction s as [|c rest IH]; simpl; [reflexivity | rewrite IH; reflexivity]. Qed.

Lemma skip_white_toLowerCase (s : string) :
  Js.skip_white (Js.toLowerCase s) = option_map Js.toLowerCase (Js.skip_white s).
Proof.
  destruct s as [|c rest]; [reflexivity|].
  cbn [Js.toLowerCase Js.skip_white]. rewrite lower_char_white_1.
  destruct (Js.white_space_1 c); [reflexivity|].
  destruct rest as [|d rest2]; [reflexivity|].
  cbn [Js.toLowerCase]. rewrite lower_char_white_2.
  destruct (Js.white_space_2 c d); [reflexivity|].
  destruct rest2 as [|e rest3]; [reflexivity|].
  cbn [Js.toLowerCase]. rewrite lower_char_white_3.
  destruct (Js.white_space_3 c d e); reflexivity.
Qed.

Lemma trimStart_toLowerCase (s : string) :
  Js.trimStart (Js.toLowerCase s) = Js.toLowerCase (Js.trimStart s).
Proof.
  remember (String.length s) as n eqn:En. revert s En.
  induction n as [n IH] using lt_wf_ind. intros s En.
  rewrite (trimStart_unfold (Js.toLowerCase s)), (trimStart_unfold s),
    skip_white_toLowerCase.
  destruct (Js.skip_white s) as [r|] eqn:E; [|reflexivity].
  pose proof (skip_white_shorter s r E) as Hlt.
  exact (IH (String.length r) ltac:(lia) r eq_refl).
Qed.

Lemma all_white_toLowerCase (s : string) :
  Js.all_white (Js.toLowerCase s) = Js.all_white s.
Proof.
  unfold Js.all_white. rewrite trimStart_toLowerCase.
  destruct (Js.trimStart s); reflexivity.
Qed.

Lemma trimEnd_toLowerCase (s : string) :
  Js.trimEnd (Js.toLowerCase s) = Js.toLowerCase (Js.trimEnd s).
Proof.
  induction s as [|c rest IH]; [reflexivity|].
  cbn [Js.toLowerCase Js.trimEnd].
  change (String (Js.lower_char c) (Js.toLowerCase rest))
    with (Js.toLowerCase (String c rest)).
  rewrite all_white_toLowerCase.
  destruct (Js.all_white (String c rest)); [reflexivity|].
  cbn [Js.toLowerCase]. rewrite IH. reflexivity.
Qed.

Lemma trim_toLowerCase (s : string) :
  Js.trim (Js.toLowerCase s) = Js.toLowerCase (Js.trim s).
Proof.
  unfold Js.trim. rewrite trimStart_toLowerCase, trimEnd_toLowerCase. reflexivity.
Qed.

Lemma split_comma_toLowerCase (s : string) :
  Js.split_comma (Js.toLowerCase s) = map Js.toLowerCase (Js.split_comma s).
Proof.
  induction s as [|c rest IH]; simpl; [reflexivity|].
  rewrite lower_char_comma, IH.
  destruct (Ascii.eqb c ","%char); [reflexivity|].
  destruct (Js.split_comma rest); reflexivity.
Qed.

(** The token list is that of the lower-cased parameter. *)
Lemma populate_tokens_of_lower (raw : string) :
  (if String.eqb raw "" then []
   else map (fun p => Js.toLowerCase (Js.trim p)) (Js.split_comma raw))
  = (if String.eqb (Js.toLowerCase raw) "" then []
     else map (fun p => Js.toLowerCase (Js.trim p))
            (Js.split_comma (Js.toLowerCase raw))).
Proof.
  destruct raw as [|c rest]; [reflexivity|].
  change (String.eqb (String c rest) "") with false.
  change (String.eqb (Js.toLowerCase (String c rest)) "") with false.
  cbv iota. rewrite split_comma_toLowerCase, map_map.
  apply map_ext. intros p.
  rewrite trim_toLowerCase, toLowerCase_idem. reflexivity.
Qed.

(** X10: the [include] option handed to [findAll] is [undefined],
    [[Student]], [[Teacher]] or [[Student, Teacher]]: never an empty array,
    never a model twice, and always in this order, however the tokens of
    [populate] are ordered or repeated. *)
Theorem include_option_shapes (req : Request) :
  In (include (findAll_options req))
     [None; Some [Student]; Some [Teacher]; Some [Student; Teacher]].
Proof.
  unfold findAll_options, include_of; simpl.
  destruct (Js.includes (populateList_of req) "students");
    destruct (Js.includes (populateList_of req) "teachers"); simpl; auto.
Qed.

(** X11: the [include] option depends on [populate] only up to letter
    case: two requests whose [populate] parameters have the same
    lower-case form include the same models. *)
Theorem populate_ignores_case (req1 req2 : Request) (raw1 raw2 : string) :
  lookup "populate" (query req1) = Some (QString raw1) ->
  lookup "populate" (query req2) = Some (QString raw2) ->
  Js.toLowerCase raw1 = Js.toLowerCase raw2 ->
  include (findAll_options req1) = include (findAll_options req2).
Proof.
  intros H1 H2 Hlow.
  assert (E : populateList_of req1 = populateList_of req2).
  { unfold populateList_of. rewrite H1, H2.
    rewrite (populate_tokens_of_lower raw1), (populate_tokens_of_lower raw2).
    rewrite Hlow. reflexivity. }
  unfold findAll_options, include_of; simpl. rewrite E. reflexivity.
Qed.

(** ** Tokens *)

Lemma has_upper_toLowerCase (s : string) : has_upper (Js.toLowerCase s) = false.
Proof.
  induction s as [|c rest IH]; simpl; [reflexivity|].
  rewrite lower_char_not_upper, IH. reflexivity.
Qed.

Lemma has_comma_toLowerCase (s : string) :
  has_comma (Js.toLowerCase s) = has_comma s.
Proof.
  induction s as [|c rest IH]; simpl; [reflexivity|].
  rewrite lower_char_comma, IH. reflexivity.
Qed.

Lemma has_comma_append (a b : string) :
  has_comma (a ++ b) = has_comma a || has_comma b.
Proof.
  induction a as [|c a IH]; simpl; [reflexivity|].
  rewrite IH, orb_assoc. reflexivity.
Qed.

Lemma has_comma_trim (s : string) :
  has_comma s = false -> has_comma (Js.trim s) = false.
Proof.
  intros H. destruct (trim_trimmed s) as [(lead & trail & Hs & _) _].
  rewrite Hs, !has_comma_append in H.
  apply orb_false_iff in H. destruct H as [_ H].
  apply orb_false_iff in H. exact (proj1 H).
Qed.

(** A string that lower-cases to a concatenation is a concatenation of
    strings that lower-case to the parts. *)
Lemma toLowerCase_append (s a b : string) :
  Js.toLowerCase s = a ++ b ->
  exists s1 s2, s = s1 ++ s2 /\ Js.toLowerCase s1 = a /\ Js.toLowerCase s2 = b.
Proof.
  revert s. induction a as [|x a IH]; intros s H.
  - exists "", s. auto.
  - destruct s as [|c rest]; [discriminate|].
    simpl in H. injection H as Hc Hrest.
    destruct (IH rest Hrest) as (s1 & s2 & -> & H1 & H2).
    exists (String c s1), s2. simpl. rewrite Hc, H1. auto.
Qed.

(** A string without letters a to z is the lower-case form of itself
    only. *)
Lemma toLowerCase_preimage (w s : string) :
  (forall c, In c (list_ascii_of_string w) -> Js.code c < 97 \/ 122 < Js.code c) ->
  Js.toLowerCase s = w -> s = w.
Proof.
  revert s. induction w as [|x w IH]; intros s Hw H.
  - destruct s; [reflexivity | discriminate].
  - destruct s as [|c rest]; [discriminate|].
    simpl in H. injection H as Hc Hrest.
    rewrite (IH rest) by (try assumption; intros c' Hc'; apply Hw; right; exact Hc').
    f_equal.
    destruct (lower_char_cases c) as [E | [Hrange E]]; [congruence|].
    specialize (Hw x (or_introl eq_refl)). rewrite <- Hc in Hw. lia.
Qed.

(** The encodings of the white-space characters have no letter. *)
Lemma white_space_no_letter (cp : Z) (c : ascii) :
  In cp white_space_code_points ->
  In c (list_ascii_of_string (utf8 cp)) ->
  Js.code c < 97 \/ 122 < Js.code c.
Proof.
  intros Hcp. simpl in Hcp.
  repeat destruct Hcp as [<- | Hcp]; try destruct Hcp;
    simpl; intros H;
    repeat destruct H as [<- | H]; try destruct H;
    vm_compute; first [ left; reflexivity | right; reflexivity ].
Qed.

(** X12: every token the handler compares with ['students'] and
    ['teachers'] is normalised: it has no letter A to Z and no comma, and
    it neither starts nor ends with any of the white-space characters of
    ECMAScript. *)
Theorem populate_tokens_normalised (req : Request) (t : string) :
  In t (populateList_of req) ->
  has_upper t = false
  /\ has_comma t = false
  /\ (forall cp rest, In cp white_space_code_points -> t <> utf8 cp ++ rest)
  /\ (forall cp rest, In cp white_space_code_points -> t <> rest ++ utf8 cp).
Proof.
  unfold populateList_of.
  destruct (lookup "populate" (query req)) as [[raw | items | fields]|];
    try (intros []).
  destruct (String.eqb raw ""); [intros []|].
  intros H. apply in_map_iff in H. destruct H as (p & <- & Hp).
  destruct (trim_trimmed p) as (_ & Hstart & Hend).
  split; [apply has_upper_toLowerCase|]. split; [|split].
  - rewrite has_comma_toLowerCase. apply has_comma_trim.
    exact (split_comma_pieces_no_comma raw p Hp).
  - intros cp rest Hcp E.
    destruct (toLowerCase_append _ _ _ E) as (s1 & s2 & Hs & H1 & _).
    apply toLowerCase_preimage in H1;
      [|intros c; apply white_space_no_letter; exact Hcp].
    subst s1. exact (Hstart cp s2 Hcp Hs).
  - intros cp rest Hcp E.
    destruct (toLowerCase_append _ _ _ E) as (s1 & s2 & Hs & _ & H2).
    apply toLowerCase_preimage in H2;
      [|intros c; apply white_space_no_letter; exact Hcp].
    subst s2. exact (Hend cp s1 Hcp Hs).
Qed.

(** X13: [split(',')] cuts exactly at the commas: joining the pieces with
    commas gives the string back, there is at least one piece, and no
    piece has a comma. *)
Theorem split_comma_spec (s : string) :
  String.concat "," (Js.split_comma s) = s
  /\ Js.split_comma s <> []
  /\ forall p, In p (Js.split_comma s) -> has_comma p = false.
Proof.
  split; [apply split_comma_join|]. split.
  - destruct s as [|c rest]; simpl; [discriminate|].
    destruct (Ascii.eqb c ","%char); [discriminate|].
    destruct (Js.split_comma rest); discriminate.
  - apply split_comma_pieces_no_comma.
Qed.

(** ** Decimal parameters *)

(** Reading the digits of a decimal numeral after a nonzero value. *)
Lemma read_digits_acc (d : Decimal.uint) (tail : string) (acc : positive) :
  (forall a, Js.read_digits 10 tail a = a) ->
  Js.read_digits 10 (NilEmpty.string_of_uint d ++ tail) (Some (Z.pos acc))
  = Some (Z.pos (Pos.of_uint_acc d acc)).
Proof.
  intros Htail. revert acc.
  induction d as [|d IH|d IH|d IH|d IH|d IH|d IH|d IH|d IH|d IH|d IH];
    intros acc; [apply Htail | ..];
    cbn [NilEmpty.string_of_uint append Js.read_digits];
    match goal with
    | |- context [Js.radix_digit 10 ?c] =>
        let v := eval vm_compute in (Js.radix_digit 10 c) in
        change (Js.radix_digit 10 c) with v
    end;
    cbv iota; cbn [Pos.of_uint_acc]; rewrite <- IH; do 2 f_equal; lia.
Qed.

(** Reading the digits of a decimal numeral after zeros only. *)
Lemma read_digits_zero (d : Decimal.uint) (tail : string) :
  (forall a, Js.read_digits 10 tail a = a) ->
  Js.read_digits 10 (NilEmpty.string_of_uint d ++ tail) (Some 0)
  = Some (Z.of_N (Pos.of_uint d)).
Proof.
  intros Htail.
  induction d as [|d IH|d IH|d IH|d IH|d IH|d IH|d IH|d IH|d IH|d IH];
    [apply Htail | ..];
    cbn [NilEmpty.string_of_uint append Js.read_digits];
    match goal with
    | |- context [Js.radix_digit 10 ?c] =>
        let v := eval vm_compute in (Js.radix_digit 10 c) in
        change (Js.radix_digit 10 c) with v
    end;
    cbv iota; cbn [Pos.of_uint Z.of_N];
    first [ exact IH | apply (read_digits_acc d tail _ Htail) ].
Qed.

(** Reading a decimal numeral from its first digit. *)
Lemma read_digits_start (d : Decimal.uint) (tail : string) :
  d <> Decimal.Nil ->
  (forall a, Js.read_digits 10 tail a = a) ->
  Js.read_digits 10 (NilEmpty.string_of_uint d ++ tail) None
  = Some (Z.of_N (Pos.of_uint d)).
Proof.
  intros Hd Htail.
  destruct d as [|d|d|d|d|d|d|d|d|d|d]; [contradiction | ..];
    cbn [NilEmpty.string_of_uint append Js.read_digits];
    match goal with
    | |- context [Js.radix_digit 10 ?c] =>
        let v := eval vm_compute in (Js.radix_digit 10 c) in
        change (Js.radix_digit 10 c) with v
    end;
    cbv iota; cbn [Pos.of_uint Z.of_N];
    first [ apply (read_digits_zero d tail Htail)
          | apply (read_digits_acc d tail _ Htail) ].
Qed.

(** A string that starts with an ASCII character other than white space
    has no leading white space. *)
Lemma trimStart_ascii (c : ascii) (r : string) :
  Js.white_space_1 c = false -> Js.code c < 128 ->
  Js.trimStart (String c r) = String c r.
Proof.
  intros H1 Hc. cbn [Js.trimStart]. rewrite H1.
  assert (E2 : forall d, Js.white_space_2 c d = false).
  { intros d. unfold Js.white_space_2.
    destruct (Z.eqb_spec (Js.code c) 194); [lia | reflexivity]. }
  assert (E3 : forall d e, Js.white_space_3 c d e = false).
  { intros d e. unfold Js.white_space_3.
    destruct (Z.eqb_spec (Js.code c) 225); [lia|].
    destruct (Z.eqb_spec (Js.code c) 226); [lia|].
    destruct (Z.eqb_spec (Js.code c) 227); [lia|].
    destruct (Z.eqb_spec (Js.code c) 239); [lia|]. reflexivity. }
  destruct r as [|d [|e r]]; rewrite ?E2, ?E3; reflexivity.
Qed.

(** [parseInt] on a decimal numeral followed by text that does not start
    with a digit, nor, after a lone zero, with the [x] of a hexadecimal
    prefix. *)
Lemma parseInt_string_numeral (d : Decimal.uint) (tail : string) :
  d <> Decimal.Nil ->
  (forall a, Js.read_digits 10 tail a = a) ->
  (d = Decimal.D0 Decimal.Nil ->
   first_char tail <> Some "x"%char /\ first_char tail <> Some "X"%char) ->
  Js.parseInt_string (NilEmpty.string_of_uint d ++ tail)
  = Js.round (Z.of_N (Pos.of_uint d))
  /\ Js.parseInt_string (String "-" (NilEmpty.string_of_uint d ++ tail))
     = Js.round (- Z.of_N (Pos.of_uint d)).
Proof.
  intros Hd Htail Hx.
  destruct d as [|d|d|d|d|d|d|d|d|d|d]; [contradiction | ..].
  2-10:
    cbn [NilEmpty.string_of_uint append];
    remember (NilEmpty.string_of_uint d ++ tail) as r eqn:Er;
    unfold Js.parseInt_string; rewrite !trimStart_ascii by reflexivity;
    simpl; subst r;
    rewrite (read_digits_acc d tail _ Htail);
    cbn [Pos.of_uint Z.of_N]; split; first [ reflexivity | destruct (Z.of_N _); reflexivity ].
  destruct d as [|d|d|d|d|d|d|d|d|d|d].
  1: { destruct (Hx eq_refl) as [Hlow Hup].
    destruct tail as [|t tail']; [split; reflexivity|].
    pose proof (Htail (Some 0)) as H0.
    destruct t as [[] [] [] [] [] [] [] []];
      try (exfalso; apply Hlow; reflexivity);
      try (exfalso; apply Hup; reflexivity);
      simpl in H0; cbn [NilEmpty.string_of_uint append];
      unfold Js.parseInt_string;
      rewrite !trimStart_ascii by reflexivity; simpl;
      try rewrite H0; split; reflexivity. }
  all:
    cbn [NilEmpty.string_of_uint append];
    remember (NilEmpty.string_of_uint d ++ tail) as r eqn:Er;
    unfold Js.parseInt_string; rewrite !trimStart_ascii by reflexivity;
    simpl; subst r;
    first [ rewrite (read_digits_zero d tail Htail)
          | rewrite (read_digits_acc d tail _ Htail) ];
    cbn [Pos.of_uint Z.of_N];
    split; first [ reflexivity | destruct (Z.of_N _); reflexivity ].
Qed.

Lemma to_uint_not_nil (p : positive) : Pos.to_uint p <> Decimal.Nil.
Proof.
  intros E. pose proof (DecimalPos.Unsigned.of_to p) as H.
  rewrite E in H. discriminate H.
Qed.

Lemma to_uint_not_zero (p : positive) : Pos.to_uint p <> Decimal.D0 Decimal.Nil.
Proof.
  intros E. pose proof (DecimalPos.Unsigned.of_to p) as H.
  rewrite E in H. discriminate H.
Qed.

Lemma string_of_to_uint (p : positive) :
  NilZero.string_of_uint (Pos.to_uint p) = NilEmpty.string_of_uint (Pos.to_uint p).
Proof.
  pose proof (to_uint_not_nil p) as H.
  destruct (Pos.to_uint p); [contradiction | reflexivity ..].
Qed.

(** [parseInt] reads the decimal form of an integer back, whatever text
    follows it, as long as that text does not continue the numeral; the
    value is the double nearest to the integer. *)
Lemma parseInt_string_decimal (z : Z) (tail : string) :
  (forall a, Js.read_digits 10 tail a = a) ->
  (z = 0 -> first_char tail <> Some "x"%char /\ first_char tail <> Some "X"%char) ->
  Js.parseInt_string (decimal z ++ tail) = Js.round z.
Proof.
  intros Htail Hx. unfold decimal.
  destruct z as [|p|p]; simpl.
  - apply (parseInt_string_numeral (Decimal.D0 Decimal.Nil) tail);
      [discriminate | exact Htail | intros _; exact (Hx eq_refl)].
  - rewrite string_of_to_uint.
    destruct (parseInt_string_numeral (Pos.to_uint p) tail (to_uint_not_nil p) Htail)
      as [H _].
    + intros E. exfalso. exact (to_uint_not_zero p E).
    + rewrite H, DecimalPos.Unsigned.of_to. reflexivity.
  - rewrite string_of_to_uint.
    destruct (parseInt_string_numeral (Pos.to_uint p) tail (to_uint_not_nil p) Htail)
      as [_ H].
    + intros E. exfalso. exact (to_uint_not_zero p E).
    + rewrite H, DecimalPos.Unsigned.of_to. reflexivity.
Qed.

Lemma parseInt_string_decimal_exact (z : Z) :
  Js.parseInt_string (decimal z) = Js.round z.
Proof.
  rewrite <- (append_empty (decimal z)).
  apply parseInt_string_decimal.
  - intros a. reflexivity.
  - intros _. split; discriminate.
Qed.

(** [parseInt(req.query.key) || d] for a parameter written in decimal. *)
Lemma or_default_decimal (req : Request) (key : string) (z d : Z) :
  lookup key (query req) = Some (QString (decimal z)) ->
  z <> 0 ->
  Js.or (parseInt_query req key) (Js.Int d) = Js.round z.
Proof.
  intros Hq Hz. unfold parseInt_query. rewrite Hq. simpl. unfold Js.parseInt.
  rewrite parseInt_string_decimal_exact. unfold Js.or.
  rewrite (round_truthy z Hz). reflexivity.
Qed.

(** X14: [parseInt] reads the decimal spelling of an integer back as the
    double nearest to it, negative ones included: the integer itself
    when its magnitude is below 2^53, and a rounded value or an infinity
    beyond. *)
Theorem parseInt_decimal_round_trip (z : Z) :
  Js.parseInt (Some (decimal z)) = Js.round z
  /\ (safe z -> Js.parseInt (Some (decimal z)) = Js.Int z).
Proof.
  assert (H : Js.parseInt (Some (decimal z)) = Js.round z).
  { unfold Js.parseInt. apply parseInt_string_decimal_exact. }
  split; [exact H|].
  intros Hs. rewrite H. apply round_safe. exact Hs.
Qed.

(** X15: [parseInt] ignores what follows the numeral: a decimal integer
    followed by text that starts with a character that is not a decimal
    digit parses to the same value as the integer alone, the double
    nearest to it, which is the integer itself below 2^53; except that a
    lone ["0"] followed by [x] or [X] is read as a hexadecimal prefix. *)
Theorem parseInt_ignores_trailing_text (z : Z) (c : ascii) (rest : string) :
  Js.radix_digit 10 c = None ->
  (z = 0 -> c <> "x"%char /\ c <> "X"%char) ->
  Js.parseInt (Some (decimal z ++ String c rest)) = Js.round z
  /\ Js.parseInt (Some (decimal z ++ String c rest)) = Js.parseInt (Some (decimal z))
  /\ (safe z -> Js.parseInt (Some (decimal z ++ String c rest)) = Js.Int z).
Proof.
  intros Hc Hx.
  assert (H : Js.parseInt (Some (decimal z ++ String c rest)) = Js.round z).
  { unfold Js.parseInt.
    apply parseInt_string_decimal.
    - intros a. simpl. rewrite Hc. reflexivity.
    - intros Hz. destruct (Hx Hz) as [Hlow Hup]. simpl.
      split; intros [= E]; [apply Hlow | apply Hup]; exact E. }
  split; [exact H|]. split.
  - rewrite H. unfold Js.parseInt. symmetry. apply parseInt_string_decimal_exact.
  - intros Hs. rewrite H. apply round_safe. exact Hs.
Qed.

(** ** Pagination arithmetic *)

(** X16: a request with [limit] and [page] written as nonzero decimal
    integers [l] and [p] reaches [findAll] with the doubles nearest to
    them: limit [round l] and offset [(round p - 1) * round l] in double
    arithmetic; when [l], [p], [p - 1] and [(p - 1) * l] are all of
    magnitude below 2^53 these are [l] and [(p - 1) * l] exactly. *)
Theorem decimal_limit_and_page (db : DataAccess) (req : Request) (s : Store db)
  (options : FindOptions) (thrown : option Error) (l p : Z) :
  In (Called (FindAll options) thrown) (trace (run db (getAllCourses req) s)) ->
  lookup "limit" (query req) = Some (QString (decimal l)) ->
  lookup "page" (query req) = Some (QString (decimal p)) ->
  l <> 0 ->
  p <> 0 ->
  limit options = Some (Js.round l)
  /\ offset options = Some (Js.mul (Js.sub (Js.round p) (Js.Int 1)) (Js.round l))
  /\ (safe l -> safe p -> safe (p - 1) -> safe ((p - 1) * l) ->
      limit options = Some (Js.Int l)
      /\ offset options = Some (Js.Int ((p - 1) * l))).
Proof.
  intros H Hl Hp Hl0 Hp0.
  apply getAllCourses_findAll_options in H. subst options.
  unfold findAll_options, limit_of, page_of; simpl.
  rewrite (or_default_decimal req "limit" l 10 Hl Hl0).
  rewrite (or_default_decimal req "page" p 1 Hp Hp0).
  split; [reflexivity|]. split; [reflexivity|].
  intros Sl Sp Sp1 Spl.
  rewrite (round_safe l Sl), (round_safe p Sp). simpl.
  rewrite (round_safe (p - 1) Sp1). simpl.
  rewrite (round_safe ((p - 1) * l) Spl).
  split; reflexivity.
Qed.

(** X17: with the same nonzero decimal limit [l], the offset of page
    [p + 1] is the offset of page [p] plus [l], and the offset of page 1
    is 0: consecutive pages ask for adjacent ranges of rows.  The values
    are those of double arithmetic, so this holds as long as [l], the
    pages from [p - 1] to [p + 1] and the two offsets stay of magnitude
    below 2^53. *)
Theorem consecutive_pages_are_adjacent (req1 req2 : Request) (l p : Z) :
  lookup "limit" (query req1) = Some (QString (decimal l)) ->
  lookup "limit" (query req2) = Some (QString (decimal l)) ->
  lookup "page" (query req1) = Some (QString (decimal p)) ->
  lookup "page" (query req2) = Some (QString (decimal (p + 1))) ->
  l <> 0 -> p <> 0 -> p + 1 <> 0 ->
  safe l -> safe (p - 1) -> safe (p + 1) ->
  safe ((p - 1) * l) -> safe (p * l) ->
  exists o1 o2,
    offset (findAll_options req1) = Some (Js.Int o1)
    /\ offset (findAll_options req2) = Some (Js.Int o2)
    /\ o2 = o1 + l
    /\ (p = 1 -> o1 = 0).
Proof.
  intros Hl1 Hl2 Hp1 Hp2 Hl0 Hp0 Hq0 Sl Sp1 Sq Sp1l Spl.
  assert (Sp : safe p) by (unfold safe in *; lia).
  assert (Sq1 : safe (p + 1 - 1)) by (unfold safe in *; lia).
  assert (Sq1l : safe ((p + 1 - 1) * l)).
  { replace (p + 1 - 1) with p by lia. exact Spl. }
  exists ((p - 1) * l), ((p + 1 - 1) * l).
  unfold findAll_options, limit_of, page_of; simpl.
  rewrite (or_default_decimal req1 "limit" l 10 Hl1 Hl0).
  rewrite (or_default_decimal req1 "page" p 1 Hp1 Hp0).
  rewrite (or_default_decimal req2 "limit" l 10 Hl2 Hl0).
  rewrite (or_default_decimal req2 "page" (p + 1) 1 Hp2 Hq0).
  rewrite (round_safe l Sl), (round_safe p Sp), (round_safe (p + 1) Sq). simpl.
  rewrite (round_safe (p - 1) Sp1), (round_safe (p + 1 - 1) Sq1). simpl.
  rewrite (round_safe _ Sp1l), (round_safe _ Sq1l).
  repeat split; try reflexivity; [lia | intros ->; lia].
Qed.


Section Envelope.

Variable db : DataAccess.

(** X19: when the count resolves to zero, a successful [getAllCourses]
    response carries [totalItems] 0 and [totalPages] 0, whatever the limit
    parameter is. *)
Theorem empty_table_has_no_pages (req : Request) (s : Store db) (r : Response) :
  response (run db (getAllCourses req) s) = Some r ->
  status r = 200 ->
  fst (exec db Count s) = inr 0 ->
  meta_of "totalItems" r = Some (JNum (Js.Int 0))
  /\ meta_of "totalPages" r = Some (JNum (Js.Int 0)).
Proof.
  intros Hr Hok Hcount.
  destruct (getAllCourses_success db req s r Hr Hok) as (total & courses & Ht & _ & E).
  rewrite Hcount in Ht. injection Ht as <-.
  unfold meta_of. rewrite E. simpl.
  destruct (or_default (parseInt_query req "limit") 10 ltac:(lia))
    as (Hnan & Hzero & _).
  fold (limit_of req) in Hnan, Hzero.
  split; [reflexivity|].
  destruct (limit_of req) as [| | |[|l|l]]; simpl;
    [contradiction | reflexivity | reflexivity | contradiction
    | reflexivity | reflexivity].
Qed.

(** X20: a successful [getAllCourses] response echoes the requested page:
    [meta.page] is the parsed [page] parameter whenever that is neither
    NaN nor zero, also when it is negative, infinite or beyond
    [totalPages], and 1 when the parameter is missing, not a number or
    zero.  A page written as a nonzero decimal integer is echoed as the
    double nearest to it, which is the integer itself below 2^53.  This
    is the value handed to [res.json]. *)
Theorem page_is_echoed (req : Request) (s : Store db) (r : Response) :
  response (run db (getAllCourses req) s) = Some r ->
  status r = 200 ->
  meta_of "page" r
  = Some (JNum (match parseInt_query req "page" with
                | Js.NaN | Js.Int 0 => Js.Int 1
                | parsed => parsed
                end))
  /\ (lookup "page" (query req) = None -> meta_of "page" r = Some (JNum (Js.Int 1)))
  /\ (forall p,
        lookup "page" (query req) = Some (QString (decimal p)) ->
        p <> 0 ->
        meta_of "page" r = Some (JNum (Js.round p))
        /\ (safe p -> meta_of "page" r = Some (JNum (Js.Int p)))).
Proof.
  intros Hr Hok.
  destruct (getAllCourses_success db req s r Hr Hok) as (total & courses & _ & _ & E).
  assert (Hpage : meta_of "page" r = Some (JNum (page_of req))).
  { unfold meta_of. rewrite E. reflexivity. }
  rewrite Hpage. split; [|split].
  - unfold page_of, Js.or.
    destruct (parseInt_query req "page") as [| | |[|p|p]]; reflexivity.
  - intros Hnone. unfold page_of, parseInt_query. rewrite Hnone. reflexivity.
  - intros p Hp Hp0. unfold page_of.
    rewrite (or_default_decimal req "page" p 1 Hp Hp0).
    split; [reflexivity|].
    intros Sp. rewrite (round_safe p Sp). reflexivity.
Qed.

End Envelope.

(** ** The further properties at concrete requests *)

(** The reading calls of the in-memory collaborator leave the store as it
    is. *)
Lemma MemDb_reads (X : Type) (c : Call X) (st : Store MemDb.db) :
  is_read c = true -> snd (exec MemDb.db c st) = st.
Proof.
  destruct c; simpl; try discriminate; intros _;
    unfold MemDb.exec; destruct (MemDb.connected st); reflexivity.
Qed.

(** The database is unreachable: the count throws, the error is logged,
    and no page is requested. *)
Lemma no_call_after_failure_witness :
  trace (run MemDb.db (handler OpGetAllCourses (get_request [] "")) MemDb.offline)
  = ([] ++ Called Count (Some MemDb.connection_error)
        :: [Logged MemDb.connection_error])%list
  /\ forallb (fun x => negb (is_call x)) [Logged MemDb.connection_error] = true.
Proof.
  split; [reflexivity|].
  apply (no_call_after_failure MemDb.db OpGetAllCourses (get_request [] "")
           MemDb.offline [] [Logged MemDb.connection_error]
           (Called Count (Some MemDb.connection_error))).
  - reflexivity.
  - reflexivity.
  - discriminate.
Defined.

Lemma list_and_fetch_only_read_witness :
  existsb is_mutation
    (trace (run MemDb.db (handler OpGetAllCourses (get_request [("limit", "2")] ""))
              MemDb.sample)) = false
  /\ final (run MemDb.db (handler OpGetAllCourses (get_request [("limit", "2")] ""))
              MemDb.sample) = MemDb.sample.
Proof.
  destruct (list_and_fetch_only_read MemDb.db OpGetAllCourses
              (get_request [("limit", "2")] "") MemDb.sample
              (or_introl eq_refl)) as [Hcalls Hstore].
  split; [exact Hcalls | exact (Hstore MemDb_reads)].
Defined.

Lemma not_found_only_when_absent_witness :
  exists options,
    fst (exec MemDb.db (FindByPk "7" options) MemDb.sample) = inr None
    /\ trace (run MemDb.db (handler OpGetCourseById (get_request [] "7")) MemDb.sample)
       = [Called (FindByPk "7" options) None].
Proof.
  apply (not_found_only_when_absent MemDb.db OpGetCourseById (get_request [] "7")
           MemDb.sample).
  reflexivity.
Defined.

Lemma create_only_by_createCourse_witness :
  exists created,
    fst (exec MemDb.db (Create drawing_course) MemDb.sample) = inr created
    /\ response (run MemDb.db (handler OpCreateCourse (mkRequest drawing_course [] ""))
                   MemDb.sample)
       = Some (res_status_json 201 (toJSON created)).
Proof.
  destruct (create_only_by_createCourse MemDb.db OpCreateCourse
              (mkRequest drawing_course [] "") MemDb.sample
              (Called (Create drawing_course) None) drawing_course
              ltac:(left; reflexivity) eq_refl) as (_ & _ & _ & Hok).
  exact (Hok eq_refl).
Defined.

Lemma update_only_on_fetched_witness :
  exists updated,
    fst (exec MemDb.db
           (Update (mkInstance (mkCourseRow 1 "Algebra" "Intro" 3 10 10) [])
                   (JObj [("title", JStr "Algebra II")]))
           MemDb.sample) = inr updated
    /\ response (run MemDb.db
                   (handler OpUpdateCourse
                      (mkRequest (JObj [("title", JStr "Algebra II")]) [] "1"))
                   MemDb.sample)
       = Some (res_json (toJSON updated)).
Proof.
  destruct (update_only_on_fetched MemDb.db OpUpdateCourse
              (mkRequest (JObj [("title", JStr "Algebra II")]) [] "1")
              MemDb.sample
              (Called (Update (mkInstance (mkCourseRow 1 "Algebra" "Intro" 3 10 10) [])
                              (JObj [("title", JStr "Algebra II")])) None)
              (mkInstance (mkCourseRow 1 "Algebra" "Intro" 3 10 10) [])
              (JObj [("title", JStr "Algebra II")])
              ltac:(right; left; reflexivity) eq_refl) as (_ & _ & _ & Hok).
  exact (Hok eq_refl).
Defined.

Lemma destroy_only_on_fetched_witness :
  fst (exec MemDb.db (FindByPk "2" None) MemDb.sample)
  = inr (Some (mkInstance (mkCourseRow 2 "Biology" "Cells" 4 20 20) []))
  /\ response (run MemDb.db (handler OpDeleteCourse (get_request [] "2")) MemDb.sample)
     = Some (res_json (JObj [("message", JStr "Deleted")])).
Proof.
  destruct (destroy_only_on_fetched MemDb.db OpDeleteCourse (get_request [] "2")
              MemDb.sample
              (Called (Destroy (mkInstance (mkCourseRow 2 "Biology" "Cells" 4 20 20) []))
                      None)
              (mkInstance (mkCourseRow 2 "Biology" "Cells" 4 20 20) [])
              ltac:(right; left; reflexivity) eq_refl) as (_ & Hfetch & Hok).
  split; [exact Hfetch | exact (Hok eq_refl)].
Defined.

Lemma populate_ignores_case_witness :
  include (findAll_options (get_request [("populate", "Students")] ""))
  = include (findAll_options (get_request [("populate", "STUDENTS")] "")).
Proof.
  apply (populate_ignores_case (get_request [("populate", "Students")] "")
           (get_request [("populate", "STUDENTS")] "") "Students" "STUDENTS");
    reflexivity.
Defined.

Lemma populate_tokens_normalised_witness :
  In "students" (populateList_of (get_request [("populate", spaced_populate)] ""))
  /\ has_upper "students" = false
  /\ has_comma "students" = false
  /\ (forall cp rest, In cp white_space_code_points -> "students" <> utf8 cp ++ rest)
  /\ (forall cp rest, In cp white_space_code_points -> "students" <> rest ++ utf8 cp).
Proof.
  assert (Hin : In "students"
                  (populateList_of (get_request [("populate", spaced_populate)] ""))).
  { left. reflexivity. }
  split; [exact Hin|].
  exact (populate_tokens_normalised _ _ Hin).
Defined.

Lemma parseInt_ignores_trailing_text_witness :
  Js.parseInt (Some (decimal 25 ++ String "p" "x")) = Js.Int 25
  /\ Js.parseInt (Some (decimal 25 ++ String "p" "x")) = Js.parseInt (Some (decimal 25)).
Proof.
  destruct (parseInt_ignores_trailing_text 25 "p"%char "x") as (_ & Hsame & Hsafe).
  - reflexivity.
  - intros H. discriminate H.
  - split; [apply Hsafe; unfold safe; simpl; lia | exact Hsame].
Defined.

(** [GET /courses?limit=2&page=3] asks for rows 4 and 5. *)
Lemma decimal_limit_and_page_witness :
  limit (findAll_options (get_request [("limit", decimal 2); ("page", decimal 3)] ""))
  = Some (Js.Int 2)
  /\ offset (findAll_options (get_request [("limit", decimal 2); ("page", decimal 3)] ""))
     = Some (Js.Int ((3 - 1) * 2)).
Proof.
  destruct (decimal_limit_and_page MemDb.db
              (get_request [("limit", decimal 2); ("page", decimal 3)] "") MemDb.sample
              (findAll_options (get_request [("limit", decimal 2); ("page", decimal 3)] ""))
              None 2 3) as (_ & _ & Hsafe).
  - right. left. reflexivity.
  - reflexivity.
  - reflexivity.
  - lia.
  - lia.
  - apply Hsafe; unfold safe; simpl; lia.
Defined.

Lemma consecutive_pages_are_adjacent_witness :
  exists o1 o2,
    offset (findAll_options (get_request [("limit", "2"); ("page", "1")] ""))
    = Some (Js.Int o1)
    /\ offset (findAll_options (get_request [("limit", "2"); ("page", "2")] ""))
       = Some (Js.Int o2)
    /\ o2 = o1 + 2
    /\ (1 = 1 -> o1 = 0).
Proof.
  apply (consecutive_pages_are_adjacent
           (get_request [("limit", "2"); ("page", "1")] "")
           (get_request [("limit", "2"); ("page", "2")] "") 2 1);
    first [ reflexivity | lia | unfold safe; simpl; lia ].
Defined.


Lemma empty_table_has_no_pages_witness :
  exists r,
    response (run MemDb.db (getAllCourses (get_request [("limit", "5")] ""))
                (MemDb.mkStore [] [] [] 1 0 true)) = Some r
    /\ meta_of "totalItems" r = Some (JNum (Js.Int 0))
    /\ meta_of "totalPages" r = Some (JNum (Js.Int 0)).
Proof.
  eexists. split; [reflexivity|].
  apply (empty_table_has_no_pages MemDb.db (get_request [("limit", "5")] "")
           (MemDb.mkStore [] [] [] 1 0 true)); reflexivity.
Defined.

(** Page 99 of a table of three rows: the page is empty and the response
    still says page 99. *)
Lemma page_is_echoed_witness :
  exists r,
    response (run MemDb.db (getAllCourses (get_request [("page", "99")] ""))
                MemDb.sample) = Some r
    /\ sent r = list_envelope (Js.Int 3) (Js.Int 99) (Js.Int 1) []
    /\ meta_of "page" r = Some (JNum (Js.Int 99)).
Proof.
  eexists. split; [reflexivity|]. split; [reflexivity|].
  destruct (page_is_echoed MemDb.db (get_request [("page", "99")] "") MemDb.sample
              _ eq_refl eq_refl) as (_ & _ & Hdecimal).
  destruct (Hdecimal 99 eq_refl ltac:(lia)) as [_ Hsafe].
  apply Hsafe. unfold safe. simpl. lia.
Defined.

(** A limit of 310 digits is beyond the doubles: it parses to
    [Infinity], which is truthy, and the ceiling of the division is 0. *)
Example limit_is_infinite :
  limit_of (get_request [("limit", string_of_list_ascii (repeat "9"%char 310))] "")
  = Js.PosInfinity
  /\ Js.ceil_div (Js.Int 3)
       (limit_of (get_request [("limit", string_of_list_ascii (repeat "9"%char 310))] ""))
     = Js.Int 0.
Proof. split; vm_compute; reflexivity. Qed.

(** A page beyond 2^53 is echoed as the double nearest to it. *)
Example page_is_rounded :
  page_of (get_request [("page", "9007199254740993")] "") = Js.Int 9007199254740992.
Proof. reflexivity. Qed.

(** The numerals of the negative offsets that lose their last digits. *)
Example offset_is_rounded :
  offset (findAll_options
            (get_request [("limit", "94906267"); ("page", "-94906266")] ""))
  = Some (Js.Int (-9007199515875288)).
Proof. reflexivity. Qed.

(** X21: [getCourseById] answers 200 exactly when its fetch resolved to a
    record, and the body is then that record as serialised. *)
Theorem getCourseById_ok_iff_found (db : DataAccess) (req : Request) (s : Store db) :
  option_map status (response (run db (getCourseById req) s)) = Some 200
  <-> exists course,
        fst (exec db (FindByPk (params_id req) (Some with_both_associations)) s)
        = inr (Some course)
        /\ response (run db (getCourseById req) s) = Some (res_json (toJSON course)).
Proof.
  unfold getCourseById, response; simpl. await_answer.
  - split; [discriminate | intros (course & H & _); discriminate H].
  - destruct val as [course|]; simpl.
    + split; [intros _; exists course; split; reflexivity | reflexivity].
    + split; [discriminate | intros (course & H & _); discriminate H].
Qed.
